(** * Artifact lifecycle and serving state machine of the MLOps pipeline

    A shallow embedding of
      - src/api/main.py            (module [Api]: the inference server),
      - src/dags/train_pipeline.py (module [Dag]: the four pipeline stages),
      - src/src/train.py           (module [Train]: the stand-alone script),
    followed by the properties stated about them.

    Conventions.
      - Python numbers are rationals [Q]. Of a float only its order is used
        (np.max), so NaN and the infinities are left out; an integer too
        large for a float matters where a number is formatted.
      - A raised Python exception is a value of [exn]; a computation that can
        raise returns [exn + A].
      - The fitted estimator, the trainer, the pseudo-random generator and
        the JSON round trip of a table are external collaborators: they
        appear as records of functions or as section variables, never as a
        fixed implementation.
      - The pipeline calls [joblib.dumps] and [joblib.loads]. The stages
        take the two operations as parameters; joblib itself offers [dump]
        and [load] only, so the operations the stages really get are
        [Dag.joblib_dumps_absent] and [Dag.joblib_loads_absent], which raise.
      - The file system is a finite map from path strings to files; a
        relative and an absolute spelling of one location are two keys.
      - Wall-clock time enters a handler as the argument [now].
      - Left out: the scheduler wiring of the four tasks, the root
        endpoint, and log lines that cannot raise (apart from the ones the
        properties speak about). *)

From Stdlib Require Import ZArith QArith Qround String Ascii List Permutation Sorted Lia.
From stdpp Require Import base option gmap strings list.
Import ListNotations.
Local Open Scope string_scope.
Local Open Scope list_scope.
#[local] Set Warnings "-register-all".

(* ===================================================================== *)
(** ** Python values shared by the three source files                     *)
(* ===================================================================== *)

(** A raised exception: its class name and [str(e)]. *)
Record exn := Exn { exn_class : string; exn_msg : string }.

Definition result (A : Type) : Type := (exn + A)%type.

Definition raise {A} (cls msg : string) : result A := inl (Exn cls msg).

Definition rbind {A B} (m : result A) (k : A -> result B) : result B :=
  match m with
  | inl e => inl e
  | inr a => k a
  end.

Notation "x <- m ;; k" := (rbind m (fun x => k))
  (at level 100, m at next level, right associativity).

(** The Python values the code keeps in dicts and lists: a JSON document
    as [json.load] returns it ([JNull] is Python's [None]; a [JObj] is a
    dict in insertion order), and the numpy integer scalars that the items
    of an integer column are. [json.load] never returns a [JNumpyInt] and
    [json.dump] refuses one. *)
Inductive json :=
| JNull
| JBool (b : bool)
| JNum (q : Q)
| JStr (s : string)
| JArr (items : list json)
| JObj (fields : list (string * json))
| JNumpyInt (z : Z).

(** Python truthiness, as used by [x or y] and [if not x]. *)
Definition truthy (j : json) : bool :=
  match j with
  | JNull => false
  | JBool b => b
  | JNum q => negb (Qeq_bool q 0)
  | JStr s => negb (String.eqb s "")
  | JArr items => match items with [] => false | _ => true end
  | JObj fields => match fields with [] => false | _ => true end
  | JNumpyInt z => negb (Z.eqb z 0)
  end.

Fixpoint assoc_get {V} (k : string) (d : list (string * V)) : option V :=
  match d with
  | [] => None
  | (k', v) :: d' => if String.eqb k k' then Some v else assoc_get k d'
  end.

(** [d[k] = v] on an insertion-ordered dict: an existing key keeps its
    position and takes the new value, a new key goes last. *)
Fixpoint dict_set {V} (k : string) (v : V) (d : list (string * V)) : list (string * V) :=
  match d with
  | [] => [(k, v)]
  | (k', v') :: d' =>
      if String.eqb k k' then (k', v) :: d' else (k', v') :: dict_set k v d'
  end.

(** [dict(pairs)]. *)
Definition dict_of_pairs {V} (pairs : list (string * V)) : list (string * V) :=
  fold_left (fun d kv => dict_set (fst kv) (snd kv) d) pairs [].

(** [o.get(key, default)]; only dicts have the method. *)
Definition py_get (o : json) (key : string) (default : json) : result json :=
  match o with
  | JObj fields =>
      inr (match assoc_get key fields with Some v => v | None => default end)
  | _ => raise "AttributeError" "object has no attribute 'get'"
  end.

(** The least magnitude at which [float(n)] of a Python int overflows:
    2^1024 - 2^970, half a unit in the last place above the largest
    double. A float is always below it. *)
Definition float_limit : Q := inject_Z (2 ^ 1024 - 2 ^ 970).

Definition float_overflow (q : Q) : bool :=
  Qle_bool float_limit q || Qle_bool q (- float_limit).
Arguments float_overflow : simpl never.

(** [f"{v:.4f}"]: the value is converted to a float and formatted. It
    succeeds on a bool, on a numpy integer and on a number within the float
    range, raises [OverflowError] on an integer beyond it, and raises on
    anything that is not a number; the text itself only goes to the log. *)
Definition format_4f (v : json) : result unit :=
  match v with
  | JNum q =>
      if float_overflow q
      then raise "OverflowError" "int too large to convert to float"
      else inr tt
  | JBool _ | JNumpyInt _ => inr tt
  | _ => raise "TypeError" "unsupported format string"
  end.

(** Whether the JSON encoder accepts the value: it refuses numpy integers,
    wherever they sit. *)
Fixpoint encodable (v : json) : bool :=
  match v with
  | JNumpyInt _ => false
  | JArr items => forallb encodable items
  | JObj fields => forallb (fun kv : string * json => encodable (snd kv)) fields
  | _ => true
  end.

(** The encoding step of [json.dumps(v)] and [json.dump(v, f)]. *)
Definition json_encode (v : json) : result json :=
  if encodable v then inr v
  else raise "TypeError" "Object of type int64 is not JSON serializable".

(** [seq[i]] on a Python list. *)
Definition getitem {A} (l : list A) (i : nat) : result A :=
  match l !! i with
  | Some a => inr a
  | None => raise "IndexError" "index out of range"
  end.

(** [np.max] of a one-dimensional array. *)
Definition np_max (row : list Q) : result Q :=
  match row with
  | [] => raise "ValueError" "zero-size array to reduction operation maximum which has no identity"
  | p :: ps => inr (fold_left (fun m x => if Qle_bool x m then m else x) ps p)
  end.

(** The fitted estimator held by the server. Its two inference operations
    take a feature matrix (one row per sample) and may raise; on success
    [predict] gives labels (already through [str]) and [predict_proba] gives
    one per-class distribution per row. [feature_importances_] is the
    attribute read by the training code. *)
Record Estimator := {
  est_predict : list (list Q) -> result (list string);
  est_predict_proba : list (list Q) -> result (list (list Q));
  feature_importances_ : list Q
}.

(* ===================================================================== *)
(** ** POSIX paths and the file system                                    *)
(* ===================================================================== *)

Module Path.

Definition slash : ascii := "/"%char.

Definition chars (s : string) : list ascii := list_ascii_of_string s.
Definition text (l : list ascii) : string := string_of_list_ascii l.

(** [s.rstrip('/')] on a character list. *)
Fixpoint rstrip_slash (l : list ascii) : list ascii :=
  match l with
  | [] => []
  | c :: l' =>
      match rstrip_slash l' with
      | [] => if Ascii.eqb c slash then [] else [c]
      | r => c :: r
      end
  end.

(** The prefix of [l] up to and including its last slash
    ([p[:p.rfind('/') + 1]]). *)
Fixpoint head_to_last_slash (l : list ascii) : list ascii :=
  match l with
  | [] => []
  | c :: l' =>
      match head_to_last_slash l' with
      | [] => if Ascii.eqb c slash then [c] else []
      | r => c :: r
      end
  end.

(** [os.path.dirname] (posixpath): cut after the last slash, then strip
    trailing slashes unless the head consists of slashes only. *)
Definition dirname (p : string) : string :=
  let head := head_to_last_slash (chars p) in
  match rstrip_slash head with
  | [] => text head
  | stripped => text stripped
  end.

Definition starts_with_slash (p : string) : bool :=
  match p with
  | String c _ => Ascii.eqb c slash
  | EmptyString => false
  end.

Definition ends_with_slash (p : string) : bool :=
  match rev (chars p) with
  | c :: _ => Ascii.eqb c slash
  | [] => false
  end.

(** [os.path.join(a, b)] (posixpath, two components). *)
Definition join (a b : string) : string :=
  if starts_with_slash b then b
  else if String.eqb a "" || ends_with_slash a then a +:+ b
  else a +:+ "/" +:+ b.

End Path.

(** A table as pandas holds it: column names and rows of cells, an absent
    cell being a null (NaN). [VNum] is an item of a float column, [VInt] an
    item of an integer column (a numpy integer), [VStr] a string. Boolean
    columns are left out. *)
Inductive value := VNum (q : Q) | VInt (z : Z) | VStr (s : string).
Definition cell := option value.

Record DataFrame := {
  columns : list string;
  rows : list (list cell)
}.

(** What a path can hold. [FPickle o] deserialises with joblib to the
    Python object [o] ([None] being a pickled [None]); [FCsv df] parses
    with [pd.read_csv] to [df]; [FJson j] parses with [json.load] to [j];
    [FOther] is readable by none of them. *)
Inductive file :=
| FDir
| FCsv (df : DataFrame)
| FPickle (obj : option Estimator)
| FJson (doc : json)
| FOther.

Module FS.

Definition exists_ (fs : gmap string file) (p : string) : bool :=
  match fs !! p with Some _ => true | None => false end.

(** The candidate-path probe used by both processes:
    [for path in possible_paths: if os.path.exists(path): ...; break]. *)
Definition first_existing (fs : gmap string file) (candidates : list string)
  : option string :=
  List.find (exists_ fs) candidates.

Definition joblib_load (fs : gmap string file) (p : string)
  : result (option Estimator) :=
  match fs !! p with
  | Some (FPickle obj) => inr obj
  | Some FDir => raise "IsADirectoryError" p
  | Some _ => raise "UnpicklingError" p
  | None => raise "FileNotFoundError" p
  end.

Definition json_load (fs : gmap string file) (p : string) : result json :=
  match fs !! p with
  | Some (FJson doc) => inr doc
  | Some FDir => raise "IsADirectoryError" p
  | Some _ => raise "JSONDecodeError" p
  | None => raise "FileNotFoundError" p
  end.

Definition read_csv (fs : gmap string file) (p : string) : result DataFrame :=
  match fs !! p with
  | Some (FCsv df) => inr df
  | Some FDir => raise "IsADirectoryError" p
  | Some _ => raise "ParserError" p
  | None => raise "FileNotFoundError" p
  end.

(** Giving a regular file the content [f]; a directory in the way raises. *)
Definition write (fs : gmap string file) (p : string) (f : file)
  : result (gmap string file) :=
  match fs !! p with
  | Some FDir => raise "IsADirectoryError" p
  | _ => inr (<[p := f]> fs)
  end.

(** [open(p, 'w')] or [open(p, 'wb')]: the file is created, or emptied if
    it exists. Until its content has been written it is a file that no
    reader can parse. *)
Definition open_w (fs : gmap string file) (p : string)
  : result (gmap string file) :=
  write fs p FOther.

(** [os.makedirs(p, exist_ok=True)]. *)
Definition makedirs (fs : gmap string file) (p : string)
  : result (gmap string file) :=
  match fs !! p with
  | Some FDir => inr fs
  | Some _ => raise "FileExistsError" p
  | None => inr (<[p := FDir]> fs)
  end.

End FS.

(* ===================================================================== *)
(** ** src/api/main.py: the inference server                              *)
(* ===================================================================== *)

Module Api.

(** *** Request and response models *)

Record PredictionInput := {
  sepal_length : Q;
  sepal_width : Q;
  petal_length : Q;
  petal_width : Q
}.

Record PredictionOutput := {
  prediction : string;
  confidence : Q;
  input_features : list (string * Q);
  model_version : string;
  timestamp : string
}.

Record HealthResponse := {
  status : string;
  model_loaded : bool;
  health_model_version : option string;
  health_timestamp : string;
  message : string
}.

Record ModelInfo := {
  model_name : string;
  model_type : string;
  features : list string;
  classes : list string;
  accuracy : Q;
  info_timestamp : string
}.

(** One entry of the [results] list of the batch endpoint. *)
Record BatchItem := {
  index : nat;
  item_prediction : string;
  item_confidence : Q;
  item_input_features : list (string * Q)
}.

Record BatchResponse := {
  total_samples : nat;
  predictions : list BatchItem;
  batch_timestamp : string
}.

(** What the transport sends back: the handler's return value, or the
    status code and detail of an error response. *)
Inductive response (A : Type) :=
| Ok200 (body : A)
| Error (status_code : Z) (detail : string).
Arguments Ok200 {A} body.
Arguments Error {A} status_code detail.

(** *** Process-wide state: the three module globals *)

Record ServerState := {
  MODEL : option Estimator;
  MODEL_METADATA : json;
  MODEL_LOADED : bool
}.

(** The values the module assigns at import time. *)
Definition initial : ServerState :=
  {| MODEL := None; MODEL_METADATA := JNull; MODEL_LOADED := false |}.

Definition set_MODEL (m : option Estimator) (st : ServerState) : ServerState :=
  {| MODEL := m; MODEL_METADATA := MODEL_METADATA st; MODEL_LOADED := MODEL_LOADED st |}.
Definition set_MODEL_METADATA (j : json) (st : ServerState) : ServerState :=
  {| MODEL := MODEL st; MODEL_METADATA := j; MODEL_LOADED := MODEL_LOADED st |}.
Definition set_MODEL_LOADED (b : bool) (st : ServerState) : ServerState :=
  {| MODEL := MODEL st; MODEL_METADATA := MODEL_METADATA st; MODEL_LOADED := b |}.

(** *** Invocations of the estimator

    A handler returns, next to its outcome, the estimator operations it
    invoked, in order. *)

Inductive call :=
| PredictCall (X : list (list Q))
| PredictProbaCall (X : list (list Q)).

Definition traced (A : Type) : Type := (list call * result A)%type.

Definition tret {A} (a : A) : traced A := ([], inr a).

Definition lift {A} (r : result A) : traced A := ([], r).

Definition tbind {A B} (m : traced A) (k : A -> traced B) : traced B :=
  match m with
  | (t, inl e) => (t, inl e)
  | (t, inr a) => let '(t', r) := k a in (t ++ t', r)
  end.

Notation "x <~ m ;; k" := (tbind m (fun x => k))
  (at level 100, m at next level, right associativity).

(** [MODEL.predict(features)]; on [None] the attribute lookup raises. *)
Definition model_predict (m : option Estimator) (X : list (list Q))
  : traced (list string) :=
  match m with
  | None => lift (raise "AttributeError" "'NoneType' object has no attribute 'predict'")
  | Some est => ([PredictCall X], est_predict est X)
  end.

(** [MODEL.predict_proba(features)]. *)
Definition model_predict_proba (m : option Estimator) (X : list (list Q))
  : traced (list (list Q)) :=
  match m with
  | None => lift (raise "AttributeError" "'NoneType' object has no attribute 'predict_proba'")
  | Some est => ([PredictProbaCall X], est_predict_proba est X)
  end.

(** *** Startup: [load_model] *)

Definition possible_paths : list string :=
  [ "models/model.pkl";
    "./models/model.pkl";
    "/opt/airflow/models/model.pkl";
    "/app/models/model.pkl" ].

(** The three log lines written once the metadata is read; each evaluates
    an expression on [MODEL_METADATA] that can raise. *)
Definition log_metadata (meta : json) : result unit :=
  _ <- py_get meta "features_used" (JArr []) ;;
  _ <- py_get meta "classes" (JArr []) ;;
  acc <- py_get meta "train_accuracy" (JNum 0) ;;
  format_4f acc.

(** The body of the startup hook. Every exception inside the [try] ends
    in [MODEL_LOADED = False], leaving the globals assigned so far. *)
Definition load_model (fs : gmap string file) (st : ServerState) : ServerState :=
  match FS.first_existing fs possible_paths with
  | None => set_MODEL_LOADED false st
  | Some model_path =>
      match FS.joblib_load fs model_path with
      | inl _ => set_MODEL_LOADED false st
      | inr obj =>
          let st1 := set_MODEL obj st in
          let metadata_path := Path.dirname model_path +:+ "/metrics.json" in
          if FS.exists_ fs metadata_path then
            match FS.json_load fs metadata_path with
            | inl _ => set_MODEL_LOADED false st1
            | inr doc =>
                let st2 := set_MODEL_METADATA doc st1 in
                match log_metadata doc with
                | inl _ => set_MODEL_LOADED false st2
                | inr _ => set_MODEL_LOADED true st2
                end
            end
          else set_MODEL_LOADED true st1
      end
  end.

(** The guard shared by the three model-dependent handlers:
    [not MODEL_LOADED or MODEL is None]. *)
Definition not_loaded (st : ServerState) : bool :=
  negb (MODEL_LOADED st) || match MODEL st with None => true | Some _ => false end.

(** *** GET /health *)

Definition health_check (st : ServerState) (now : string) : response HealthResponse :=
  let '(status, message, model_version) :=
    if MODEL_LOADED st && match MODEL st with None => false | Some _ => true end
    then ("healthy", "API is running and model is loaded", Some "1.0.0")
    else ("unhealthy", "API is running but model is not loaded", None) in
  Ok200 {| status := status;
           model_loaded := MODEL_LOADED st;
           health_model_version := model_version;
           health_timestamp := now;
           message := message |}.

(** *** GET /model-info *)

Definition default_features : list string :=
  ["sepal_length"; "sepal_width"; "petal_length"; "petal_width"].

Definition default_classes : list string :=
  ["setosa"; "versicolor"; "virginica"].

(** Validation of a [List[str]] field. Only a list of strings is taken;
    the coercions pydantic may apply to other values are not modelled. *)
Fixpoint str_items (items : list json) : result (list string) :=
  match items with
  | [] => inr []
  | JStr s :: rest => ss <- str_items rest ;; inr (s :: ss)
  | _ :: _ => raise "ValidationError" "str type expected"
  end.

Definition as_str_list (v : json) : result (list string) :=
  match v with
  | JArr items => str_items items
  | _ => raise "ValidationError" "value is not a valid list"
  end.

(** Validation of a [float] field: a number is taken as it is, a
    boolean as 1 or 0 and a numpy integer as its value; the conversion of
    numeric strings is not modelled. *)
Definition as_float (v : json) : result Q :=
  match v with
  | JNum q => inr q
  | JBool b => inr (if b then 1%Q else 0%Q)
  | JNumpyInt z => inr (inject_Z z)
  | _ => raise "ValidationError" "value is not a valid float"
  end.

Definition get_model_info (st : ServerState) (now : string) : response ModelInfo :=
  if not_loaded st then Error 503 "Model not loaded"
  else
    let metadata := if truthy (MODEL_METADATA st) then MODEL_METADATA st else JObj [] in
    let body :=
      fv <- py_get metadata "features_used" (JArr (map JStr default_features)) ;;
      cv <- py_get metadata "classes" (JArr (map JStr default_classes)) ;;
      av <- py_get metadata "train_accuracy" (JNum 1) ;;
      fs <- as_str_list fv ;;
      cs <- as_str_list cv ;;
      a <- as_float av ;;
      inr {| model_name := "Random Forest Classifier";
             model_type := "sklearn.ensemble.RandomForestClassifier";
             features := fs;
             classes := cs;
             accuracy := a;
             info_timestamp := now |} in
    match body with
    | inr info => Ok200 info
    | inl _ => Error 500 "Internal server error"   (* general_exception_handler *)
    end.

(** *** POST /predict *)

(** The row handed to the estimator, in the order the handler writes it. *)
Definition feature_row (p : PredictionInput) : list Q :=
  [sepal_length p; sepal_width p; petal_length p; petal_width p].

(** The echoed [input_features] dict. *)
Definition echo (p : PredictionInput) : list (string * Q) :=
  [ ("sepal_length", sepal_length p);
    ("sepal_width", sepal_width p);
    ("petal_length", petal_length p);
    ("petal_width", petal_width p) ].

Definition predict (st : ServerState) (now : string) (input_data : PredictionInput)
  : list call * response PredictionOutput :=
  if not_loaded st
  then ([], Error 503 "Model is not loaded. Please check server logs.")
  else
    let body :=
      let features := [feature_row input_data] in
      preds <~ model_predict (MODEL st) features ;;
      prediction <~ lift (getitem preds 0) ;;
      probas <~ model_predict_proba (MODEL st) features ;;
      prediction_proba <~ lift (getitem probas 0) ;;
      confidence <~ lift (np_max prediction_proba) ;;
      tret {| prediction := prediction;
              confidence := confidence;
              input_features := echo input_data;
              model_version := "1.0.0";
              timestamp := now |} in
    match body with
    | (t, inr out) => (t, Ok200 out)
    | (t, inl e) => (t, Error 400 ("Prediction failed: " +:+ exn_msg e))
    end.

(** *** POST /predict-batch *)

(** The loop over [enumerate(zip(batch_predictions, batch_probas))],
    entered at index [i]. *)
Fixpoint batch_results (predictions : list PredictionInput) (i : nat)
    (zipped : list (string * list Q)) : result (list BatchItem) :=
  match zipped with
  | [] => inr []
  | (pred, proba) :: rest =>
      conf <- np_max proba ;;
      p <- getitem predictions i ;;
      let item := {| index := i;
                     item_prediction := pred;
                     item_confidence := conf;
                     item_input_features := echo p |} in
      items <- batch_results predictions (S i) rest ;;
      inr (item :: items)
  end.

Definition predict_batch (st : ServerState) (now : string)
    (predictions : list PredictionInput)
  : list call * response BatchResponse :=
  if not_loaded st
  then ([], Error 503 "Model is not loaded")
  else
    let body :=
      let features := map feature_row predictions in
      batch_predictions <~ model_predict (MODEL st) features ;;
      batch_probas <~ model_predict_proba (MODEL st) features ;;
      results <~ lift (batch_results predictions 0
                         (combine batch_predictions batch_probas)) ;;
      tret {| total_samples := length predictions;
              predictions := results;
              batch_timestamp := now |} in
    match body with
    | (t, inr out) => (t, Ok200 out)
    | (t, inl e) => (t, Error 400 ("Batch prediction failed: " +:+ exn_msg e))
    end.

End Api.

(* ===================================================================== *)
(** ** Library operations used by the training code                       *)
(* ===================================================================== *)

(** Python's [sorted]: a stable insertion sort for the order [leb]. *)
Fixpoint insert_by {A} (leb : A -> A -> bool) (x : A) (l : list A) : list A :=
  match l with
  | [] => [x]
  | y :: l' => if leb x y then x :: l else y :: insert_by leb x l'
  end.

Definition sort_by {A} (leb : A -> A -> bool) (l : list A) : list A :=
  fold_right (insert_by leb) [] l.

(** [sorted(d.items(), key=lambda x: x[1], reverse=True)]. *)
Definition sorted_desc (items : list (string * Q)) : list (string * Q) :=
  sort_by (fun a b => Qle_bool (snd b) (snd a)) items.

Module Pandas.

(** Python's [==] on two items: numbers compare by value, whatever their
    type. *)
Definition value_eqb (a b : value) : bool :=
  match a, b with
  | VNum p, VNum q => Qeq_bool p q
  | VNum p, VInt z | VInt z, VNum p => Qeq_bool p (inject_Z z)
  | VInt y, VInt z => Z.eqb y z
  | VStr s, VStr t => String.eqb s t
  | _, _ => false
  end.

Definition cell_eqb (a b : cell) : bool :=
  match a, b with
  | Some x, Some y => value_eqb x y
  | None, None => true
  | _, _ => false
  end.

Definition nrows (df : DataFrame) : nat := length (rows df).

(** [df.shape]. *)
Definition shape (df : DataFrame) : nat * nat := (nrows df, length (columns df)).

(** [df.isnull().sum().sum()]: the number of null cells. *)
Definition null_count (df : DataFrame) : nat :=
  length (List.filter (fun c : cell => match c with None => true | Some _ => false end)
                 (concat (rows df))).

Definition has_column (name : string) (df : DataFrame) : bool :=
  existsb (String.eqb name) (columns df).

(** [df.drop(name, axis=1)]. *)
Definition drop (name : string) (df : DataFrame) : result DataFrame :=
  if has_column name df then
    let keep (r : list cell) :=
      map snd (List.filter (fun cv => negb (String.eqb name (fst cv)))
                      (combine (columns df) r)) in
    inr {| columns := List.filter (fun c => negb (String.eqb name c)) (columns df);
           rows := map keep (rows df) |}
  else raise "KeyError" name.

Fixpoint position (name : string) (cols : list string) : option nat :=
  match cols with
  | [] => None
  | c :: cols' => if String.eqb name c then Some 0 else S <$> position name cols'
  end.

(** [df[name]]: the cells of one column, row by row. *)
Definition column (name : string) (df : DataFrame) : result (list cell) :=
  match position name (columns df) with
  | None => raise "KeyError" name
  | Some i => inr (map (fun r : list cell => default None (r !! i)) (rows df))
  end.

(** [y.unique()]: the distinct labels in order of first appearance. *)
Fixpoint unique (y : list cell) : list cell :=
  match y with
  | [] => []
  | c :: y' => c :: List.filter (fun d => negb (cell_eqb c d)) (unique y')
  end.

Definition count (c : cell) (y : list cell) : nat :=
  length (List.filter (cell_eqb c) y).

(** [frame.iloc[idx]]: the rows at the given positions. *)
Definition iloc {A} (l : list A) (idx : list nat) : list A :=
  omap (fun i => l !! i) idx.

(** The feature matrix handed to an estimator; a null or non-numeric
    cell is rejected by the estimator's input validation. *)
Definition numeric_row (r : list cell) : result (list Q) :=
  fold_right (fun c acc =>
                qs <- acc ;;
                match c with
                | Some (VNum q) => inr (q :: qs)
                | Some (VInt z) => inr (inject_Z z :: qs)
                | Some (VStr _) => raise "ValueError" "could not convert string to float"
                | None => raise "ValueError" "Input contains NaN"
                end) (inr []) r.

Definition numeric (X : list (list cell)) : result (list (list Q)) :=
  fold_right (fun r acc => m <- acc ;; q <- numeric_row r ;; inr (q :: m)) (inr []) X.

(** An item of [list(y.unique())] as a Python value. *)
Definition json_of_cell (c : cell) : json :=
  match c with
  | Some (VNum q) => JNum q
  | Some (VInt z) => JNumpyInt z
  | Some (VStr s) => JStr s
  | None => JNull
  end.

End Pandas.

Module Sklearn.

(** Modelled from the spec: [train_test_split] is scikit-learn's and is
    not part of the repository. The spec calls it a deterministic,
    stratified split of fixed proportion and fixed seed; it is modelled
    by the library's documented contract. The test part has
    [ceil(test_size * n)] rows and the training part the rest; the call
    raises when a part would be empty or, under [stratify], when a class
    has fewer than two members or a part has fewer rows than there are
    classes. Which rows go where is decided by the pseudo-random
    generator (and by the stratification): [rank seed labels i] is the
    place the generator seeded with [seed] gives row [i], rows are
    arranged by rank, and the arrangement is cut after the test part. *)
Section Split.

Variable rank : Z -> list cell -> nat -> nat.

(** [check_random_state]: an integer seeds a fresh generator, [None]
    falls back on the ambient global generator. *)
Definition check_random_state (random_state : option Z) (ambient : Z) : Z :=
  match random_state with
  | Some seed => seed
  | None => ambient
  end.

(** [ceil(test_size * n)]. The source's 0.2 is a binary float slightly
    above 1/5; its product with a multiple of 5 still rounds to the exact
    quotient, so the ceiling is that of the rational product. *)
Definition n_test_of (test_size : Q) (n : nat) : nat :=
  Z.to_nat (Qceiling (test_size * inject_Z (Z.of_nat n))).

Definition arrangement (seed : Z) (labels : list cell) (n : nat) : list nat :=
  sort_by (fun i j => Nat.leb (rank seed labels i) (rank seed labels j)) (seq 0 n).

Definition stratification_ok (y : list cell) (n_train n_test : nat) : bool :=
  let cls := Pandas.unique y in
  forallb (fun c => Nat.leb 2 (Pandas.count c y)) cls
  && Nat.leb (length cls) n_train && Nat.leb (length cls) n_test.

Definition train_test_split (ambient : Z)
    (X : list (list cell)) (y : list cell)
    (test_size : Q) (random_state : option Z) (stratify : option (list cell))
  : result (list (list cell) * list (list cell) * list cell * list cell) :=
  let n := length X in
  if negb (Nat.eqb (length y) n) then
    raise "ValueError" "Found input variables with inconsistent numbers of samples"
  else if Qle_bool test_size 0 || Qle_bool 1 test_size then
    raise "ValueError" "test_size should be in the (0, 1) range"
  else
    let n_test := n_test_of test_size n in
    let n_train := n - n_test in
    if Nat.eqb n_train 0 then
      raise "ValueError" "the resulting train set will be empty"
    else if match stratify with
            | Some labels => negb (stratification_ok labels n_train n_test)
            | None => false
            end then
      raise "ValueError" "the least populated class has too few members"
    else
      let seed := check_random_state random_state ambient in
      let order := arrangement seed (default [] stratify) n in
      let test := firstn n_test order in
      let train := skipn n_test order in
      inr (Pandas.iloc X train, Pandas.iloc X test,
           Pandas.iloc y train, Pandas.iloc y test).

(** [accuracy_score(y_true, y_pred)]; predicted labels are compared
    with the string labels of the column (the text of a numeric label is
    not modelled, so a numeric label counts as a miss). *)
Definition accuracy_score (y_true : list cell) (y_pred : list string) : result Q :=
  if negb (Nat.eqb (length y_true) (length y_pred)) then
    raise "ValueError" "Found input variables with inconsistent numbers of samples"
  else
    let hit (tp : cell * string) :=
      match fst tp with
      | Some (VStr s) => String.eqb s (snd tp)
      | _ => false
      end in
    let hits := length (List.filter hit (combine y_true y_pred)) in
    inr (Z.of_nat hits # Pos.of_nat (length y_true)).

End Split.

End Sklearn.

(* ===================================================================== *)
(** ** Processes that write files and may stop half-way                   *)
(* ===================================================================== *)

(** A process run with a budget of file-system effects: every effect
    (creating a directory, opening a file for writing, writing its
    content) uses one unit, and the process stops where the budget runs
    out, leaving the file system as it is at that point. A large budget
    lets the process run to its end. *)
Module Proc.

Inductive outcome (A : Type) :=
| Returned (a : A) (fs : gmap string file)
| Raised (e : exn) (fs : gmap string file)
| Stopped (fs : gmap string file).
Arguments Returned {A} a fs.
Arguments Raised {A} e fs.
Arguments Stopped {A} fs.

Definition proc (A : Type) : Type :=
  nat -> gmap string file -> outcome (A * nat).

Definition ret {A} (a : A) : proc A := fun budget fs => Returned (a, budget) fs.

Definition bind {A B} (m : proc A) (k : A -> proc B) : proc B :=
  fun budget fs =>
    match m budget fs with
    | Returned (a, budget') fs' => k a budget' fs'
    | Raised e fs' => Raised e fs'
    | Stopped fs' => Stopped fs'
    end.

(** A computation that touches no file. *)
Definition pure {A} (r : result A) : proc A :=
  fun budget fs =>
    match r with
    | inl e => Raised e fs
    | inr a => Returned (a, budget) fs
    end.

(** A computation that only reads the file system. *)
Definition read {A} (op : gmap string file -> result A) : proc A :=
  fun budget fs => pure (op fs) budget fs.

(** One file-system effect. *)
Definition effect (op : gmap string file -> result (gmap string file)) : proc unit :=
  fun budget fs =>
    match budget with
    | O => Stopped fs
    | S budget' =>
        match op fs with
        | inl e => Raised e fs
        | inr fs' => Returned (tt, budget') fs'
        end
    end.

Definition run {A} (m : proc A) (budget : nat) (fs : gmap string file) : outcome A :=
  match m budget fs with
  | Returned (a, _) fs' => Returned a fs'
  | Raised e fs' => Raised e fs'
  | Stopped fs' => Stopped fs'
  end.

Definition returned {A} (o : outcome A) : option A :=
  match o with
  | Returned a _ => Some a
  | _ => None
  end.

Definition final_fs {A} (o : outcome A) : gmap string file :=
  match o with
  | Returned _ fs | Raised _ fs | Stopped fs => fs
  end.

End Proc.

Notation "x <! m ;; k" := (Proc.bind m (fun x => k))
  (at level 100, m at next level, right associativity).

(* ===================================================================== *)
(** ** src/dags/train_pipeline.py: the pipeline stages                    *)
(* ===================================================================== *)

Module Dag.

(** A value relayed between tasks: the text [df.to_json()] of the table
    [df], the text [json.dumps(doc)] of [doc], or a byte string. *)
Inductive xval :=
| XDataset (df : DataFrame)
| XJson (doc : json)
| XBytes (b : string).

(** The relay maps (task id, key) to the value pushed there. *)
Definition xcom_pull (xcom : gmap (string * string) xval) (task_ids key : string)
  : option xval :=
  xcom !! (task_ids, key).

Definition xcom_push (task_id key : string) (v : xval)
    (xcom : gmap (string * string) xval) : gmap (string * string) xval :=
  <[(task_id, key) := v]> xcom.

Definition json_loads (v : option xval) : result json :=
  match v with
  | Some (XJson doc) => inr doc
  | _ => raise "TypeError" "the JSON object must be str, bytes or bytearray"
  end.

(** [d[key]] and [len(v)] on deserialised JSON. *)
Definition py_index (d : json) (key : string) : result json :=
  match d with
  | JObj fields =>
      match assoc_get key fields with
      | Some v => inr v
      | None => raise "KeyError" key
      end
  | _ => raise "TypeError" "object is not subscriptable"
  end.

Definition py_len (v : json) : result nat :=
  match v with
  | JStr s => inr (String.length s)
  | JArr items => inr (length items)
  | JObj fields => inr (length fields)
  | _ => raise "TypeError" "object has no len()"
  end.

Definition jnat (n : nat) : json := JNum (inject_Z (Z.of_nat n)).

(** What a stage writes to the log, as far as it is modelled. *)
Inductive log_entry :=
| LogShape (shape : nat * nat)
| LogColumns (cols : list string)
| LogMissingValues (n : nat)
| LogImportance (feature : string) (importance : Q).

Definition possible_paths : list string :=
  [ "/opt/airflow/data/dataset.csv";
    "./data/dataset.csv";
    "/data/dataset.csv";
    "../data/dataset.csv" ].

(** *** Task 1: [load_data]

    Returns the relay after the task, the log and the task's result
    (the returned dict, or the exception the task re-raises). *)
Definition load_data (fs : gmap string file) (xcom : gmap (string * string) xval)
  : gmap (string * string) xval * list log_entry * result json :=
  match FS.first_existing fs possible_paths with
  | None => (xcom, [], raise "FileNotFoundError" "dataset.csv not found")
  | Some data_path =>
      match FS.read_csv fs data_path with
      | inl e => (xcom, [], inl e)
      | inr df =>
          (xcom_push "load_data" "dataset" (XDataset df) xcom,
           [ LogShape (Pandas.shape df);
             LogColumns (columns df);
             LogMissingValues (Pandas.null_count df) ],
           inr (JObj [ ("status", JStr "success");
                       ("shape", JArr [ jnat (fst (Pandas.shape df));
                                        jnat (snd (Pandas.shape df)) ]) ]))
      end
  end.

Section Stages.

(** The generator's arrangement of rows (see [Sklearn]). *)
Variable rank : Z -> list cell -> nat -> nat.

(** The external trainer:
    [RandomForestClassifier(n_estimators=100, random_state=seed).fit(X, y)]. *)
Variable fit : Z -> list (list Q) -> list cell -> result Estimator.

(** [pd.read_json] applied to the text [df.to_json()] of the table [df].
    The round trip through the text is the library's and is not the
    identity (floats are written with ten decimals, labels and types are
    inferred anew, and a literal string may be refused), so what comes back
    is left open. *)
Variable read_json : DataFrame -> result DataFrame.

(** [joblib.dumps] and [joblib.loads], the operations the stages call to
    relay the estimator. The stages are written against the two names;
    what the library gives for them is [joblib_dumps_absent] and
    [joblib_loads_absent] below. *)
Variable joblib_dumps : Estimator -> result string.
Variable joblib_loads : option xval -> result Estimator.

Definition pd_read_json (v : option xval) : result DataFrame :=
  match v with
  | Some (XDataset df) => read_json df
  | _ => raise "ValueError" "Invalid file path or buffer object type"
  end.

(** *** Task 2: [train_model] *)

(** From the relayed table to the four parts of the split. *)
Definition split_stage (ambient : Z) (df : DataFrame)
  : result (DataFrame * list cell *
            (list (list cell) * list (list cell) * list cell * list cell)) :=
  X <- Pandas.drop "species" df ;;
  y <- Pandas.column "species" df ;;
  parts <- Sklearn.train_test_split rank ambient (rows X) y (2 # 10) (Some 42%Z) (Some y) ;;
  inr (X, y, parts).

(** [dict(zip(X.columns, model.feature_importances_))]. *)
Definition feature_importance_of (X : DataFrame) (model : Estimator)
  : list (string * Q) :=
  dict_of_pairs (combine (columns X) (feature_importances_ model)).

Definition metrics_of (train_accuracy test_accuracy : Q)
    (X : DataFrame) (y : list cell) (X_train X_test : list (list cell))
    (feature_importance : list (string * Q)) : json :=
  JObj [ ("train_accuracy", JNum train_accuracy);
         ("test_accuracy", JNum test_accuracy);
         ("training_samples", jnat (length X_train));
         ("test_samples", jnat (length X_test));
         ("features_used", JArr (map JStr (columns X)));
         ("classes", JArr (map Pandas.json_of_cell (Pandas.unique y)));
         ("feature_importance",
          JObj (map (fun kv => (fst kv, JNum (snd kv))) feature_importance)) ].

(** Everything up to the two pushes and their arguments: the metrics
    dict, the fitted model, the importance lines logged and the dict to
    return. *)
Definition train_body (ambient : Z) (xcom : gmap (string * string) xval)
  : result (json * Estimator * list log_entry * json) :=
  df <- pd_read_json (xcom_pull xcom "load_data" "dataset") ;;
  s <- split_stage ambient df ;;
  let '(X, y, (X_train, X_test, y_train, y_test)) := s in
  Xn_train <- Pandas.numeric X_train ;;
  model <- fit 42%Z Xn_train y_train ;;
  y_pred_train <- est_predict model Xn_train ;;
  Xn_test <- Pandas.numeric X_test ;;
  y_pred_test <- est_predict model Xn_test ;;
  train_accuracy <- Sklearn.accuracy_score y_train y_pred_train ;;
  test_accuracy <- Sklearn.accuracy_score y_test y_pred_test ;;
  let feature_importance := feature_importance_of X model in
  let logged :=
    map (fun kv => LogImportance (fst kv) (snd kv)) (sorted_desc feature_importance) in
  let metrics :=
    metrics_of train_accuracy test_accuracy X y X_train X_test feature_importance in
  inr (metrics, model, logged,
       JObj [ ("status", JStr "success");
              ("train_accuracy", JNum train_accuracy);
              ("test_accuracy", JNum test_accuracy) ]).

Definition train_model (ambient : Z) (xcom : gmap (string * string) xval)
  : gmap (string * string) xval * list log_entry * result json :=
  match train_body ambient xcom with
  | inl e => (xcom, [], inl e)
  | inr (metrics, model, logged, returned) =>
      match json_encode metrics with
      | inl e => (xcom, logged, inl e)
      | inr text =>
          let xcom1 := xcom_push "train_model" "metrics" (XJson text) xcom in
          match joblib_dumps model with
          | inl e => (xcom1, logged, inl e)
          | inr bytes =>
              (xcom_push "train_model" "model" (XBytes bytes) xcom1, logged, inr returned)
          end
      end
  end.

(** *** Task 3: [save_model] *)

Definition model_dir : string := "/opt/airflow/models".

(** The summary logged after both files are written; each line
    evaluates an expression on the metrics that can raise. *)
Definition log_saved_metrics (metrics : json) : result unit :=
  a <- py_index metrics "train_accuracy" ;;
  _ <- format_4f a ;;
  b <- py_index metrics "test_accuracy" ;;
  _ <- format_4f b ;;
  f <- py_index metrics "features_used" ;;
  _ <- py_len f ;;
  c <- py_index metrics "classes" ;;
  _ <- py_len c ;;
  inr tt.

Definition save_model (xcom : gmap (string * string) xval) : Proc.proc json :=
  _ <! Proc.effect (fun fs => FS.makedirs fs model_dir) ;;
  model <! Proc.pure (joblib_loads (xcom_pull xcom "train_model" "model")) ;;
  metrics <! Proc.pure (json_loads (xcom_pull xcom "train_model" "metrics")) ;;
  let model_path := Path.join model_dir "model.pkl" in
  _ <! Proc.effect (fun fs => FS.open_w fs model_path) ;;
  _ <! Proc.effect (fun fs => FS.write fs model_path (FPickle (Some model))) ;;
  let metrics_path := Path.join model_dir "metrics.json" in
  _ <! Proc.effect (fun fs => FS.open_w fs metrics_path) ;;
  text <! Proc.pure (json_encode metrics) ;;
  _ <! Proc.effect (fun fs => FS.write fs metrics_path (FJson text)) ;;
  _ <! Proc.pure (log_saved_metrics metrics) ;;
  Proc.ret (JObj [ ("status", JStr "success");
                   ("model_path", JStr model_path);
                   ("metrics_path", JStr metrics_path) ]).

End Stages.

(** joblib as it is: the module has [dump] and [load] and neither [dumps]
    nor [loads], so evaluating [joblib.dumps] (line 156) or [joblib.loads]
    (line 180) raises before anything is serialised or read. *)
Definition joblib_dumps_absent : Estimator -> result string :=
  fun _ => raise "AttributeError" "module 'joblib' has no attribute 'dumps'".

Definition joblib_loads_absent : option xval -> result Estimator :=
  fun _ => raise "AttributeError" "module 'joblib' has no attribute 'loads'".

(** The two stages as the scheduler runs them ([task_train_model],
    [task_save_model]): the stage functions with the library as it is. *)
Definition task_train_model (rank : Z -> list cell -> nat -> nat)
    (fit : Z -> list (list Q) -> list cell -> result Estimator)
    (read_json : DataFrame -> result DataFrame)
    (ambient : Z) (xcom : gmap (string * string) xval)
  : gmap (string * string) xval * list log_entry * result json :=
  train_model rank fit read_json joblib_dumps_absent ambient xcom.

Definition task_save_model (xcom : gmap (string * string) xval) : Proc.proc json :=
  save_model joblib_loads_absent xcom.

(** *** Task 4: [log_results]

    [returns] maps a task id to the dict that task returned, which is what
    [xcom_pull(task_ids=...)] without a key gives; a task that returned
    nothing gives [None]. *)
Definition pull_return (returns : gmap string json) (task_ids : string) : json :=
  default JNull (returns !! task_ids).

Definition log_results (returns : gmap string json) (now : string) : result json :=
  let load_result := pull_return returns "load_data" in
  let train_result := pull_return returns "train_model" in
  let save_result := pull_return returns "save_model" in
  _ <- py_index load_result "status" ;;
  _ <- py_index load_result "shape" ;;
  _ <- py_index train_result "status" ;;
  a <- py_index train_result "train_accuracy" ;;
  _ <- format_4f a ;;
  b <- py_index train_result "test_accuracy" ;;
  _ <- format_4f b ;;
  _ <- py_index save_result "status" ;;
  _ <- py_index save_result "model_path" ;;
  _ <- py_index save_result "metrics_path" ;;
  inr (JObj [ ("status", JStr "pipeline_complete"); ("timestamp", JStr now) ]).

End Dag.

(* ===================================================================== *)
(** ** src/src/train.py: the stand-alone training script                  *)
(* ===================================================================== *)

Module Train.

Section Script.

Variable rank : Z -> list cell -> nat -> nat.
Variable fit : Z -> list (list Q) -> list cell -> result Estimator.

(** [pd.DataFrame({'feature': ..., 'importance': ...})
       .sort_values('importance', ascending=False)]: the table that is
    printed. Columns of different lengths are refused. *)
Definition feature_importance (X : DataFrame) (model : Estimator)
  : result (list (string * Q)) :=
  if Nat.eqb (length (columns X)) (length (feature_importances_ model))
  then inr (sorted_desc (combine (columns X) (feature_importances_ model)))
  else raise "ValueError" "All arrays must be of the same length".

Definition metrics (train_accuracy test_accuracy : Q)
    (X : DataFrame) (y : list cell) (X_train X_test : list (list cell)) : json :=
  JObj [ ("train_accuracy", JNum train_accuracy);
         ("test_accuracy", JNum test_accuracy);
         ("training_samples", Dag.jnat (length X_train));
         ("test_samples", Dag.jnat (length X_test));
         ("features_used", JArr (map JStr (columns X)));
         ("classes", JArr (map Pandas.json_of_cell (Pandas.unique y))) ].

(** Features, target and the four parts of the split. *)
Definition split (ambient : Z) (df : DataFrame)
  : result (DataFrame * list cell *
            (list (list cell) * list (list cell) * list cell * list cell)) :=
  X <- Pandas.drop "species" df ;;
  y <- Pandas.column "species" df ;;
  parts <- Sklearn.train_test_split rank ambient (rows X) y (2 # 10) (Some 42%Z) (Some y) ;;
  inr (X, y, parts).

(** The script from top to bottom; it returns the metrics it saved and
    the importance table it printed. *)
Definition main (ambient : Z) : Proc.proc (json * list (string * Q)) :=
  _ <! Proc.effect (fun fs => FS.makedirs fs "models") ;;
  df <! Proc.read (fun fs => FS.read_csv fs "data/dataset.csv") ;;
  s <! Proc.pure (split ambient df) ;;
  let '(X, y, (X_train, X_test, y_train, y_test)) := s in
  Xn_train <! Proc.pure (Pandas.numeric X_train) ;;
  model <! Proc.pure (fit 42%Z Xn_train y_train) ;;
  Xn_test <! Proc.pure (Pandas.numeric X_test) ;;
  y_pred <! Proc.pure (est_predict model Xn_test) ;;
  y_pred_train <! Proc.pure (est_predict model Xn_train) ;;
  train_accuracy <! Proc.pure (Sklearn.accuracy_score y_train y_pred_train) ;;
  test_accuracy <! Proc.pure (Sklearn.accuracy_score y_test y_pred) ;;
  table <! Proc.pure (feature_importance X model) ;;
  _ <! Proc.effect (fun fs => FS.open_w fs "models/model.pkl") ;;
  _ <! Proc.effect (fun fs => FS.write fs "models/model.pkl" (FPickle (Some model))) ;;
  let m := metrics train_accuracy test_accuracy X y X_train X_test in
  _ <! Proc.effect (fun fs => FS.open_w fs "models/metrics.json") ;;
  text <! Proc.pure (json_encode m) ;;
  _ <! Proc.effect (fun fs => FS.write fs "models/metrics.json" (FJson text)) ;;
  Proc.ret (m, table).

End Script.

End Train.

(* ===================================================================== *)
(** ** Concrete inputs used by the examples below                         *)
(* ===================================================================== *)

Module Examples.

(** An estimator that answers row by row: always "setosa", with the
    distribution 0.8 / 0.1 / 0.1. *)
Definition setosa_always : Estimator :=
  {| est_predict := fun X => inr (map (fun _ => "setosa") X);
     est_predict_proba := fun X => inr (map (fun _ => [8 # 10; 1 # 10; 1 # 10]) X);
     feature_importances_ := [1 # 10; 2 # 10; 3 # 10; 4 # 10] |}.

(** The same estimator with the input validation of a scikit-learn
    estimator: an array without samples is refused. *)
Definition refuses_empty : Estimator :=
  {| est_predict := fun X =>
       match X with
       | [] => raise "ValueError" "Expected 2D array, got 1D array instead"
       | _ => inr (map (fun _ => "setosa") X)
       end;
     est_predict_proba := fun X =>
       match X with
       | [] => raise "ValueError" "Expected 2D array, got 1D array instead"
       | _ => inr (map (fun _ => [8 # 10; 1 # 10; 1 # 10]) X)
       end;
     feature_importances_ := [1 # 10; 2 # 10; 3 # 10; 4 # 10] |}.

Definition iris_1 : Api.PredictionInput :=
  {| Api.sepal_length := 51 # 10; Api.sepal_width := 35 # 10;
     Api.petal_length := 14 # 10; Api.petal_width := 2 # 10 |}.

Definition iris_2 : Api.PredictionInput :=
  {| Api.sepal_length := 0; Api.sepal_width := 0;
     Api.petal_length := 0; Api.petal_width := 0 |}.

Definition loaded (est : Estimator) : Api.ServerState :=
  {| Api.MODEL := Some est; Api.MODEL_METADATA := JNull; Api.MODEL_LOADED := true |}.

(** The flag cleared although a model object is held (the state after a
    metadata file that fails to parse). *)
Definition flag_cleared : Api.ServerState :=
  {| Api.MODEL := Some setosa_always; Api.MODEL_METADATA := JNull;
     Api.MODEL_LOADED := false |}.

(** Metrics of a run whose training accuracy is perfect, naming the
    iris features and classes. *)
Definition perfect_metrics : json :=
  JObj [ ("train_accuracy", JNum 1);
         ("test_accuracy", JNum 1);
         ("training_samples", JNum 24);
         ("test_samples", JNum 6);
         ("features_used", JArr (map JStr Api.default_features));
         ("classes", JArr (map JStr Api.default_classes)) ].

(** A store with the artifact and no sidecar. *)
Definition fs_artifact_only : gmap string file :=
  {[ "models/model.pkl" := FPickle (Some setosa_always) ]}.

(** An artifact file whose pickled object is [None]. *)
Definition fs_pickled_none : gmap string file :=
  {[ "models/model.pkl" := FPickle None ]}.

(** The iris columns. *)
Definition iris_columns : list string :=
  ["sepal_length"; "sepal_width"; "petal_length"; "petal_width"; "species"].

Definition iris_row (species : string) : list cell :=
  [Some (VNum (51 # 10)); Some (VNum (35 # 10)); Some (VNum (14 # 10));
   Some (VNum (2 # 10)); Some (VStr species)].

(** A CSV with the header line and no record. *)
Definition df_header_only : DataFrame :=
  {| columns := iris_columns; rows := [] |}.

(** A CSV with one record whose first cell is empty. *)
Definition df_with_null : DataFrame :=
  {| columns := iris_columns;
     rows := [[None; Some (VNum (35 # 10)); Some (VNum (14 # 10));
               Some (VNum (2 # 10)); Some (VStr "setosa")]] |}.

Definition fs_header_only : gmap string file :=
  {[ "/opt/airflow/data/dataset.csv" := FCsv df_header_only ]}.

Definition fs_with_null : gmap string file :=
  {[ "./data/dataset.csv" := FCsv df_with_null ]}.

(** Thirty records, ten of each species. *)
Definition df_iris_30 : DataFrame :=
  {| columns := iris_columns;
     rows := repeat (iris_row "setosa") 10 ++ repeat (iris_row "versicolor") 10
             ++ repeat (iris_row "virginica") 10 |}.

(** Ten records, five of each of two species. *)
Definition df_iris_10 : DataFrame :=
  {| columns := iris_columns;
     rows := repeat (iris_row "setosa") 5 ++ repeat (iris_row "versicolor") 5 |}.

(** A generator that leaves the rows in place, a trainer that returns
    [setosa_always], and a JSON round trip that gives a table back as it
    was (as it does for a table of strings and of floats with few
    decimals). *)
Definition rank_in_place : Z -> list cell -> nat -> nat := fun _ _ i => i.

Definition fit_setosa : Z -> list (list Q) -> list cell -> result Estimator :=
  fun _ _ _ => inr setosa_always.

Definition read_unchanged : DataFrame -> result DataFrame := fun df => inr df.

(** The working directory of the stand-alone script. *)
Definition fs_script : gmap string file :=
  {[ "data/dataset.csv" := FCsv df_iris_10 ]}.

(** The relay after a load stage that read [df_iris_10]. *)
Definition xcom_loaded : gmap (string * string) Dag.xval :=
  {[ ("load_data", "dataset") := Dag.XDataset df_iris_10 ]}.


(** Ten records whose species column holds the integers 0 and 1. *)
Definition iris_row_coded (species : Z) : list cell :=
  [Some (VNum (51 # 10)); Some (VNum (35 # 10)); Some (VNum (14 # 10));
   Some (VNum (2 # 10)); Some (VInt species)].

Definition df_iris_coded : DataFrame :=
  {| columns := iris_columns;
     rows := repeat (iris_row_coded 0) 5 ++ repeat (iris_row_coded 1) 5 |}.

Definition xcom_loaded_coded : gmap (string * string) Dag.xval :=
  {[ ("load_data", "dataset") := Dag.XDataset df_iris_coded ]}.

Definition fs_script_coded : gmap string file :=
  {[ "data/dataset.csv" := FCsv df_iris_coded ]}.



(** The Loaded state with the given metadata. *)
Definition loaded_with (est : Estimator) (meta : json) : Api.ServerState :=
  {| Api.MODEL := Some est; Api.MODEL_METADATA := meta; Api.MODEL_LOADED := true |}.

(** A store whose first candidate is unreadable while a later candidate
    holds a good artifact. *)
Definition fs_first_unreadable : gmap string file :=
  {[ "models/model.pkl" := FOther;
     "/app/models/model.pkl" := FPickle (Some setosa_always) ]}.

(** A store whose sidecar is a JSON list instead of an object. *)
Definition fs_sidecar_is_list : gmap string file :=
  {[ "models/model.pkl" := FPickle (Some setosa_always);
     "models/metrics.json" := FJson (JArr []) ]}.

(** The results of a run in which only the Load stage has finished. *)
Definition returns_load_only : gmap string json :=
  {[ "load_data" := JObj [("status", JStr "success"); ("shape", JArr [])] ]}.

(** An estimator that returns a single label whatever the batch. *)
Definition one_label_only : Estimator :=
  {| est_predict := fun _ => inr ["setosa"];
     est_predict_proba := fun X => inr (map (fun _ => [8 # 10; 1 # 10; 1 # 10]) X);
     feature_importances_ := [] |}.

(** A sidecar whose [train_accuracy] is the integer 10^400. *)
Definition fs_sidecar_huge_accuracy : gmap string file :=
  {[ "models/model.pkl" := FPickle (Some setosa_always);
     "models/metrics.json" := FJson (JObj [("train_accuracy", JNum (inject_Z (10 ^ 400)))]) ]}.

End Examples.

(** The estimator answers row by row: whenever an operation succeeds it
    returns one entry per row of the feature matrix. *)
Definition row_wise (est : Estimator) : Prop :=
  forall X,
    (forall labels, est_predict est X = inr labels -> length labels = length X) /\
    (forall dists, est_predict_proba est X = inr dists -> length dists = length X).

(** A list of numbers in descending order. *)
Fixpoint descending (l : list Q) : bool :=
  match l with
  | a :: (b :: _) as rest => Qle_bool b a && descending rest
  | _ => true
  end.

Definition succeeded {A} (r : result A) : bool :=
  match r with
  | inr _ => true
  | inl _ => false
  end.

(** The importance values of the metrics payload found in the relay, in
    the order of the payload's mapping. *)
Definition payload_importances (xcom : gmap (string * string) Dag.xval) : list Q :=
  match Dag.xcom_pull xcom "train_model" "metrics" with
  | Some (Dag.XJson metrics) =>
      match Dag.py_index metrics "feature_importance" with
      | inr (JObj fields) =>
          omap (fun kv : string * json =>
                  match snd kv with JNum q => Some q | _ => None end) fields
      | _ => []
      end
  | _ => []
  end.

(** A sidecar document the startup log lines get through: a JSON object
    whose [train_accuracy], when present, is a boolean or a number that
    a float can hold. *)
Definition sidecar_passes (doc : json) : Prop :=
  exists fields,
    doc = JObj fields /\
    match assoc_get "train_accuracy" fields with
    | None | Some (JBool _) | Some (JNumpyInt _) => True
    | Some (JNum q) => float_overflow q = false
    | Some _ => False
    end.

(** The string contains a slash. *)
Definition has_slash (s : string) : bool :=
  existsb (fun c => Ascii.eqb c Path.slash) (Path.chars s).

(** Every label is a string. *)
Definition string_labels (y : list cell) : Prop :=
  Forall (fun c : cell => exists s, c = Some (VStr s)) y.

(** The string behind a label ([""] for anything else). *)
Definition label_text (c : cell) : string :=
  match c with
  | Some (VStr s) => s
  | _ => ""
  end.

(** The response of the model-info query in the degraded state. *)
Definition default_info (now : string) : Api.ModelInfo :=
  {| Api.model_name := "Random Forest Classifier";
     Api.model_type := "sklearn.ensemble.RandomForestClassifier";
     Api.features := Api.default_features;
     Api.classes := Api.default_classes;
     Api.accuracy := 1;
     Api.info_timestamp := now |}.

(* ===================================================================== *)
(** ** Properties of the inference server                                 *)
(* ===================================================================== *)

Lemma not_loaded_true st :
  Api.MODEL_LOADED st = false \/ Api.MODEL st = None -> Api.not_loaded st = true.
Proof.
  unfold Api.not_loaded. intros [H | H]; rewrite H; simpl.
  - reflexivity.
  - apply orb_true_r.
Qed.

Lemma not_loaded_false st est :
  Api.MODEL st = Some est -> Api.MODEL_LOADED st = true -> Api.not_loaded st = false.
Proof. unfold Api.not_loaded. intros -> ->. reflexivity. Qed.

(** C1. An inference request (single or batch) that arrives while the flag
    is unset or the model is null is answered 503, and the trace of
    estimator invocations is empty. *)
Theorem inference_rejected_when_not_loaded st now x xs :
  Api.MODEL_LOADED st = false \/ Api.MODEL st = None ->
  Api.predict st now x
    = ([], Api.Error 503 "Model is not loaded. Please check server logs.") /\
  Api.predict_batch st now xs = ([], Api.Error 503 "Model is not loaded").
Proof.
  intros H. apply not_loaded_true in H.
  unfold Api.predict, Api.predict_batch. rewrite H. split; reflexivity.
Qed.

Lemma inference_rejected_when_not_loaded_witness :
  (Api.MODEL_LOADED Examples.flag_cleared = false \/
   Api.MODEL Examples.flag_cleared = None) /\
  Api.predict Examples.flag_cleared "2024-01-01T00:00:00" Examples.iris_1
    = ([], Api.Error 503 "Model is not loaded. Please check server logs.") /\
  Api.predict_batch Examples.flag_cleared "2024-01-01T00:00:00"
      [Examples.iris_1; Examples.iris_2]
    = ([], Api.Error 503 "Model is not loaded").
Proof.
  split.
  - left. reflexivity.
  - apply (inference_rejected_when_not_loaded Examples.flag_cleared).
    left. reflexivity.
Defined.

(** [np.max] returns an element of the row that bounds every element. *)
Lemma fold_max_spec (ps : list Q) : forall p,
  let m := fold_left (fun m x => if Qle_bool x m then m else x) ps p in
  (m = p \/ In m ps) /\ (p <= m)%Q /\ (forall x, In x ps -> (x <= m)%Q).
Proof.
  induction ps as [| a ps IH]; intros p; simpl.
  - split; [now left |]. split; [apply Qle_refl | intros x []].
  - destruct (Qle_bool a p) eqn:E.
    + destruct (IH p) as (Hin & Hle & Hall).
      split; [destruct Hin; auto |]. split; [exact Hle |].
      intros x [<- | Hx]; [| now apply Hall].
      apply Qle_bool_iff in E. now apply Qle_trans with p.
    + destruct (IH a) as (Hin & Hle & Hall).
      assert (Hpa : (p <= a)%Q).
      { apply Qlt_le_weak, Qnot_le_lt. intros C.
        apply Qle_bool_iff in C. congruence. }
      split; [destruct Hin; auto |]. split; [now apply Qle_trans with a |].
      intros x [<- | Hx]; [exact Hle | now apply Hall].
Qed.

Lemma np_max_spec row m :
  np_max row = inr m -> In m row /\ (forall p, In p row -> (p <= m)%Q).
Proof.
  destruct row as [| p ps]; simpl; [discriminate |].
  intros [= <-]. destruct (fold_max_spec ps p) as (Hin & Hle & Hall).
  split.
  - destruct Hin as [-> | Hin]; [now left | now right].
  - intros x [<- | Hx]; [exact Hle | now apply Hall].
Qed.

(** C7. A successful single prediction was served in the Loaded state. The
    estimator was handed the one-row matrix of the request's four features
    in schema order, once for the label and once for the distribution; the
    confidence is an entry of the distribution returned for that row and
    bounds every entry of it; and the response holds the label, that one
    number, the request's four features under their names, the version and
    the timestamp, nothing else of the distribution. *)
Theorem predict_confidence_is_max st now x t out :
  Api.predict st now x = (t, Api.Ok200 out) ->
  let X := [[Api.sepal_length x; Api.sepal_width x; Api.petal_length x; Api.petal_width x]] in
  exists est label labels dist dists,
    Api.MODEL st = Some est /\ Api.MODEL_LOADED st = true /\
    t = [Api.PredictCall X; Api.PredictProbaCall X] /\
    est_predict est X = inr (label :: labels) /\
    est_predict_proba est X = inr (dist :: dists) /\
    In (Api.confidence out) dist /\
    (forall p, In p dist -> (p <= Api.confidence out)%Q) /\
    out = {| Api.prediction := label;
             Api.confidence := Api.confidence out;
             Api.input_features :=
               [ ("sepal_length", Api.sepal_length x);
                 ("sepal_width", Api.sepal_width x);
                 ("petal_length", Api.petal_length x);
                 ("petal_width", Api.petal_width x) ];
             Api.model_version := "1.0.0";
             Api.timestamp := now |}.
Proof.
  intros H X. revert H.
  unfold Api.predict. destruct (Api.not_loaded st) eqn:Hnl; [discriminate |].
  unfold Api.not_loaded in Hnl. apply orb_false_elim in Hnl as [Hl Hm].
  apply negb_false_iff in Hl.
  destruct (Api.MODEL st) as [est |] eqn:HM; [| discriminate]. clear Hm.
  unfold Api.model_predict, Api.model_predict_proba, Api.tbind, Api.lift, Api.tret.
  change [Api.feature_row x] with X.
  destruct (est_predict est X) as [e | labels] eqn:Hp; [discriminate |].
  destruct labels as [| label labels]; [discriminate |]. simpl.
  destruct (est_predict_proba est X) as [e | dists] eqn:Hq; [discriminate |].
  destruct dists as [| dist dists]; [discriminate |]. simpl.
  destruct (np_max dist) as [e | m] eqn:Hmax; [discriminate |].
  intros [= <- <-]. simpl.
  apply np_max_spec in Hmax as [Hin Hall].
  exists est, label, labels, dist, dists. repeat split; auto.
Qed.

Lemma predict_confidence_is_max_witness :
  exists t out,
    Api.predict (Examples.loaded Examples.setosa_always) "2024-01-01T00:00:00"
                Examples.iris_1 = (t, Api.Ok200 out) /\
    Api.confidence out = (8 # 10)%Q /\
    t = [ Api.PredictCall [[51 # 10; 35 # 10; 14 # 10; 2 # 10]];
          Api.PredictProbaCall [[51 # 10; 35 # 10; 14 # 10; 2 # 10]] ] /\
    Api.input_features out
      = [ ("sepal_length", 51 # 10); ("sepal_width", 35 # 10);
          ("petal_length", 14 # 10); ("petal_width", 2 # 10) ].
Proof.
  eexists _, _. split; [reflexivity |]. split; [reflexivity |].
  pose proof (predict_confidence_is_max (Examples.loaded Examples.setosa_always)
                "2024-01-01T00:00:00" Examples.iris_1 _ _ eq_refl) as H.
  cbv zeta in H.
  destruct H as (est & label & labels & dist & dists & _ & _ & Ht & _ & _ & _ & _ & Hout).
  split; [exact Ht |]. rewrite Hout. reflexivity.
Defined.

Lemma model_info_without_metadata st now est :
  Api.MODEL st = Some est -> Api.MODEL_LOADED st = true ->
  Api.MODEL_METADATA st = JNull ->
  Api.get_model_info st now = Api.Ok200 (default_info now).
Proof.
  intros HM HL HD. unfold Api.get_model_info.
  rewrite (not_loaded_false st est HM HL), HD. reflexivity.
Qed.

(** Startup with an artifact and no sidecar next to it. *)
Lemma load_model_degraded fs p est :
  FS.first_existing fs Api.possible_paths = Some p ->
  fs !! p = Some (FPickle (Some est)) ->
  fs !! (Path.dirname p +:+ "/metrics.json") = None ->
  Api.load_model fs Api.initial
    = {| Api.MODEL := Some est; Api.MODEL_METADATA := JNull; Api.MODEL_LOADED := true |}.
Proof.
  intros Hp Hf Hm. unfold Api.load_model, FS.joblib_load, FS.exists_.
  rewrite Hp, Hf, Hm. reflexivity.
Qed.

(** The health query in every state: it always answers normally; the
    status is "healthy" exactly when the flag is set and the model is not
    null, and "unhealthy" otherwise; the [model_loaded] field repeats the
    flag alone. *)
Lemma health_check_reports_status st now :
  exists body,
    Api.health_check st now = Api.Ok200 body /\
    (Api.status body = "healthy" <->
       Api.MODEL_LOADED st = true /\ Api.MODEL st <> None) /\
    (Api.status body = "unhealthy" <->
       Api.MODEL_LOADED st = false \/ Api.MODEL st = None) /\
    Api.model_loaded body = Api.MODEL_LOADED st /\
    Api.health_timestamp body = now.
Proof.
  unfold Api.health_check.
  destruct (Api.MODEL_LOADED st) eqn:HL, (Api.MODEL st) as [est |] eqn:HM; simpl;
    eexists; (split; [reflexivity |]); simpl; repeat split;
    try discriminate; try tauto; try congruence; intros; intuition congruence.
Qed.

(** C6. The state in which the health answer departs from the claim: an
    artifact file holding a pickled [None] is loaded without error, so the
    flag is set while the model is null. The guard of the other handlers
    counts this state as not loaded, and the health answer says
    "unhealthy" and "model is not loaded", yet its [model_loaded] field,
    which repeats the flag without the null test, is true. *)
Theorem health_check_flag_set_model_null :
  Api.MODEL (Api.load_model Examples.fs_pickled_none Api.initial) = None /\
  Api.MODEL_LOADED (Api.load_model Examples.fs_pickled_none Api.initial) = true /\
  Api.not_loaded (Api.load_model Examples.fs_pickled_none Api.initial) = true /\
  Api.health_check (Api.load_model Examples.fs_pickled_none Api.initial)
                   "2024-01-01T00:00:00"
    = Api.Ok200 {| Api.status := "unhealthy";
                   Api.model_loaded := true;
                   Api.health_model_version := None;
                   Api.health_timestamp := "2024-01-01T00:00:00";
                   Api.message := "API is running but model is not loaded" |}.
Proof. vm_compute. repeat split; reflexivity. Qed.

(** C10. After a startup that found the artifact and no sidecar, the server
    is Loaded and the model-info answer carries the compiled-in feature and
    class names and accuracy 1; a sidecar recording those names and a
    perfect training accuracy gives the very same answer. *)
Theorem model_info_degraded_load fs p est now :
  FS.first_existing fs Api.possible_paths = Some p ->
  fs !! p = Some (FPickle (Some est)) ->
  fs !! (Path.dirname p +:+ "/metrics.json") = None ->
  Api.not_loaded (Api.load_model fs Api.initial) = false /\
  Api.get_model_info (Api.load_model fs Api.initial) now
    = Api.Ok200 {| Api.model_name := "Random Forest Classifier";
                   Api.model_type := "sklearn.ensemble.RandomForestClassifier";
                   Api.features :=
                     ["sepal_length"; "sepal_width"; "petal_length"; "petal_width"];
                   Api.classes := ["setosa"; "versicolor"; "virginica"];
                   Api.accuracy := 1;
                   Api.info_timestamp := now |} /\
  Api.get_model_info
      (Api.set_MODEL_METADATA Examples.perfect_metrics (Api.load_model fs Api.initial)) now
    = Api.get_model_info (Api.load_model fs Api.initial) now.
Proof.
  intros Hp Hf Hm. rewrite (load_model_degraded fs p est Hp Hf Hm).
  repeat split; reflexivity.
Qed.

Lemma model_info_degraded_load_witness :
  FS.first_existing Examples.fs_artifact_only Api.possible_paths = Some "models/model.pkl" /\
  Examples.fs_artifact_only !! "models/model.pkl"
    = Some (FPickle (Some Examples.setosa_always)) /\
  Examples.fs_artifact_only !! "models/metrics.json" = None /\
  Api.accuracy
    match Api.get_model_info (Api.load_model Examples.fs_artifact_only Api.initial)
                             "2024-01-01T00:00:00" with
    | Api.Ok200 info => info
    | Api.Error _ _ => default_info ""
    end = 1%Q.
Proof.
  split; [reflexivity |]. split; [reflexivity |]. split; [reflexivity |].
  destruct (model_info_degraded_load Examples.fs_artifact_only "models/model.pkl"
              Examples.setosa_always "2024-01-01T00:00:00" eq_refl eq_refl eq_refl)
    as (_ & Hinfo & _).
  rewrite Hinfo. reflexivity.
Defined.

(** *** The batch loop *)

Lemma lookup_combine {A B} (a : list A) (b : list B) :
  forall k x y, a !! k = Some x -> b !! k = Some y -> combine a b !! k = Some (x, y).
Proof.
  revert b. induction a as [| a0 a IH]; intros [| b0 b] k x y Ha Hb;
    try (destruct k; discriminate).
  destruct k as [| k]; simpl in *.
  - congruence.
  - now apply IH.
Qed.

Lemma length_combine_same {A B} (a : list A) (b : list B) n :
  length a = n -> length b = n -> length (combine a b) = n.
Proof. intros Ha Hb. rewrite length_combine, Ha, Hb. apply Nat.min_id. Qed.

(** A successful loop gives one item per zipped pair, each at its own
    index and echoing the request at that index. *)
Lemma batch_results_ok preds : forall zipped i items,
  Api.batch_results preds i zipped = inr items ->
  length items = length zipped /\
  forall k label dist, zipped !! k = Some (label, dist) ->
    exists conf p,
      np_max dist = inr conf /\ preds !! (i + k)%nat = Some p /\
      items !! k = Some {| Api.index := (i + k)%nat;
                           Api.item_prediction := label;
                           Api.item_confidence := conf;
                           Api.item_input_features := Api.echo p |}.
Proof.
  induction zipped as [| [label0 dist0] zipped IH]; intros i items H; simpl in H.
  - injection H as <-. split; [reflexivity |]. intros k ? ? Hk. destruct k; discriminate.
  - destruct (np_max dist0) as [e | conf] eqn:Hmax; [discriminate |]. simpl in H.
    unfold getitem in H. destruct (preds !! i) as [p |] eqn:Hp; [| discriminate].
    simpl in H.
    destruct (Api.batch_results preds (S i) zipped) as [e | rest] eqn:Hrest;
      [discriminate |].
    simpl in H. injection H as <-.
    destruct (IH (S i) rest Hrest) as [Hlen Hitems].
    split; [simpl; now rewrite Hlen |].
    intros [| k] label dist Hk; simpl in Hk.
    + injection Hk as <- <-. exists conf, p. rewrite Nat.add_0_r. auto.
    + destruct (Hitems k label dist Hk) as (c & q & H1 & H2 & H3).
      exists c, q. replace (i + S k)%nat with (S i + k)%nat by lia. auto.
Qed.

(** One row without a maximum makes the whole loop raise. *)
Lemma batch_results_fails preds : forall zipped i k label,
  zipped !! k = Some (label, []) ->
  exists e, Api.batch_results preds i zipped = inl e.
Proof.
  induction zipped as [| [label0 dist0] zipped IH]; intros i k label Hk.
  - destruct k; discriminate.
  - simpl. destruct k as [| k]; simpl in Hk.
    + injection Hk as -> ->. simpl. eauto.
    + destruct (np_max dist0) as [e | conf]; simpl; [eauto |].
      destruct (getitem preds i) as [e | p]; simpl; [eauto |].
      destruct (IH (S i) k label Hk) as [e ->]. simpl. eauto.
Qed.

(** With no request at all, any zipped pair makes the loop raise. *)
Lemma batch_results_nil_inputs i zipped items :
  Api.batch_results [] i zipped = inr items -> zipped = [] /\ items = [].
Proof.
  destruct zipped as [| [label dist] zipped]; simpl.
  - intros [= <-]. auto.
  - destruct (np_max dist); simpl; [discriminate |].
    unfold getitem. destruct i; simpl; discriminate.
Qed.

(** The batch handler in the Loaded state, with the guard resolved. *)
Lemma predict_batch_loaded st now xs est :
  Api.MODEL st = Some est -> Api.MODEL_LOADED st = true ->
  snd (Api.predict_batch st now xs) =
    match est_predict est (map Api.feature_row xs) with
    | inl e => Api.Error 400 ("Batch prediction failed: " +:+ exn_msg e)
    | inr labels =>
        match est_predict_proba est (map Api.feature_row xs) with
        | inl e => Api.Error 400 ("Batch prediction failed: " +:+ exn_msg e)
        | inr dists =>
            match Api.batch_results xs 0 (combine labels dists) with
            | inl e => Api.Error 400 ("Batch prediction failed: " +:+ exn_msg e)
            | inr results =>
                Api.Ok200 {| Api.total_samples := length xs;
                             Api.predictions := results;
                             Api.batch_timestamp := now |}
            end
        end
    end.
Proof.
  intros HM HL. unfold Api.predict_batch.
  rewrite (not_loaded_false st est HM HL), HM.
  unfold Api.model_predict, Api.model_predict_proba, Api.tbind, Api.lift, Api.tret.
  destruct (est_predict est _) as [e | labels]; [reflexivity |].
  destruct (est_predict_proba est _) as [e | dists]; [reflexivity |].
  destruct (Api.batch_results _ _ _) as [e | results]; reflexivity.
Qed.

(** With a maximum in every row and a request behind every zipped pair,
    the loop returns. *)
Lemma batch_results_total preds : forall zipped i,
  (i + length zipped <= length preds)%nat ->
  Forall (fun ld : string * list Q => snd ld <> []) zipped ->
  exists items, Api.batch_results preds i zipped = inr items.
Proof.
  induction zipped as [| [label dist] zipped IH]; intros i Hlen Hne.
  - simpl. eauto.
  - inversion Hne as [| ? ? Hd Hrest]; subst. simpl in Hd, Hlen.
    destruct dist as [| p ps]; [contradiction |].
    destruct (lookup_lt_is_Some_2 preds i) as [x Hx]; [lia |].
    destruct (IH (S i)) as [items Hitems]; [simpl; lia | exact Hrest |].
    cbn [Api.batch_results np_max rbind]. unfold getitem. rewrite Hx.
    cbn [rbind]. rewrite Hitems. cbn [rbind]. eauto.
Qed.

(** C5. In the Loaded state, with an estimator that answers row by row
    (one label and one distribution for each row of the matrix it is
    given, the matrix holding the four features of each input in schema
    order). A batch whose rows all get a non-empty distribution is
    answered 200. A successful batch response counts the inputs, holds
    exactly one result per input, and the result at index [i] carries
    index [i], the label and the maximum of the distribution the estimator
    gave for row [i], and the four features of input [i] under their
    names. When either estimator operation raises, or some row's
    distribution has no maximum, the response is a 400 error and carries
    no results at all. *)
Theorem predict_batch_one_result_per_input st now xs est :
  Api.MODEL st = Some est -> Api.MODEL_LOADED st = true -> row_wise est ->
  let X := map (fun p => [Api.sepal_length p; Api.sepal_width p;
                          Api.petal_length p; Api.petal_width p]) xs in
  (forall labels dists,
     est_predict est X = inr labels -> est_predict_proba est X = inr dists ->
     (forall dist, In dist dists -> dist <> []) ->
     exists body, snd (Api.predict_batch st now xs) = Api.Ok200 body) /\
  (forall body, snd (Api.predict_batch st now xs) = Api.Ok200 body ->
     Api.total_samples body = length xs /\
     length (Api.predictions body) = length xs /\
     exists labels dists,
       est_predict est X = inr labels /\
       est_predict_proba est X = inr dists /\
       forall i x, xs !! i = Some x ->
         exists label dist conf,
           labels !! i = Some label /\ dists !! i = Some dist /\
           np_max dist = inr conf /\
           Api.predictions body !! i
             = Some {| Api.index := i;
                       Api.item_prediction := label;
                       Api.item_confidence := conf;
                       Api.item_input_features :=
                         [ ("sepal_length", Api.sepal_length x);
                           ("sepal_width", Api.sepal_width x);
                           ("petal_length", Api.petal_length x);
                           ("petal_width", Api.petal_width x) ] |}) /\
  (forall e, est_predict est X = inl e ->
     snd (Api.predict_batch st now xs)
       = Api.Error 400 ("Batch prediction failed: " +:+ exn_msg e)) /\
  (forall e, est_predict_proba est X = inl e ->
     exists detail, snd (Api.predict_batch st now xs) = Api.Error 400 detail) /\
  (forall labels dists i,
     est_predict est X = inr labels ->
     est_predict_proba est X = inr dists ->
     dists !! i = Some [] ->
     exists detail, snd (Api.predict_batch st now xs) = Api.Error 400 detail).
Proof.
  intros HM HL Hrw X. subst X.
  change (map (fun p => [Api.sepal_length p; Api.sepal_width p;
                         Api.petal_length p; Api.petal_width p]) xs)
    with (map Api.feature_row xs).
  rewrite (predict_batch_loaded st now xs est HM HL).
  destruct (Hrw (map Api.feature_row xs)) as [Hlab Hdist].
  rewrite length_map in Hlab, Hdist.
  split; [| split; [| split; [| split]]].
  - intros labels dists Hl0 Hd0 Hne. rewrite Hl0, Hd0.
    destruct (batch_results_total xs (combine labels dists) 0) as [items ->].
    + rewrite length_combine, (Hlab labels Hl0). simpl. lia.
    + apply List.Forall_forall. intros [l d] Hin. simpl.
      apply Hne. eapply in_combine_r; eauto.
    + eauto.
  - intros body.
    destruct (est_predict est _) as [e | labels]; [discriminate |].
    destruct (est_predict_proba est _) as [e | dists]; [discriminate |].
    destruct (Api.batch_results _ _ _) as [e | results] eqn:Hres; [discriminate |].
    intros [= <-]. simpl.
    destruct (batch_results_ok _ _ _ _ Hres) as [Hlen Hitems].
    split; [reflexivity |]. split.
    { rewrite Hlen. apply length_combine_same; auto. }
    exists labels, dists. split; [reflexivity |]. split; [reflexivity |].
    intros i x Hx.
    assert (Hi : (i < length xs)%nat) by (eapply lookup_lt_Some; eauto).
    destruct (lookup_lt_is_Some_2 labels i) as [label Hl];
      [rewrite (Hlab labels eq_refl); exact Hi |].
    destruct (lookup_lt_is_Some_2 dists i) as [dist Hd];
      [rewrite (Hdist dists eq_refl); exact Hi |].
    destruct (Hitems i label dist (lookup_combine _ _ _ _ _ Hl Hd))
      as (conf & p & Hmax & Hp & Hit).
    simpl in Hp, Hit. rewrite Hx in Hp. injection Hp as <-.
    exists label, dist, conf. auto.
  - intros e ->. reflexivity.
  - intros e ->. destruct (est_predict est _); eauto.
  - intros labels dists i Hl0 Hd0 Hi. rewrite Hl0, Hd0.
    assert (Hlt : (i < length xs)%nat).
    { rewrite <- (Hdist dists Hd0). eapply lookup_lt_Some; eauto. }
    destruct (lookup_lt_is_Some_2 labels i) as [label Hl];
      [rewrite (Hlab labels Hl0); exact Hlt |].
    destruct (batch_results_fails xs _ 0 i label (lookup_combine _ _ _ _ _ Hl Hi))
      as [e ->].
    eauto.
Qed.

Lemma setosa_always_row_wise : row_wise Examples.setosa_always.
Proof. intros X. split; intros l [= <-]; apply length_map. Qed.

Lemma predict_batch_one_result_per_input_witness :
  Api.MODEL (Examples.loaded Examples.setosa_always) = Some Examples.setosa_always /\
  Api.MODEL_LOADED (Examples.loaded Examples.setosa_always) = true /\
  row_wise Examples.setosa_always /\
  exists body,
    snd (Api.predict_batch (Examples.loaded Examples.setosa_always)
           "2024-01-01T00:00:00" [Examples.iris_1; Examples.iris_2]) = Api.Ok200 body /\
    Api.total_samples body = 2%nat /\
    length (Api.predictions body) = 2%nat.
Proof.
  split; [reflexivity |]. split; [reflexivity |].
  split; [exact setosa_always_row_wise |].
  eexists. split; [reflexivity |].
  pose proof (predict_batch_one_result_per_input
                (Examples.loaded Examples.setosa_always) "2024-01-01T00:00:00"
                [Examples.iris_1; Examples.iris_2] Examples.setosa_always
                eq_refl eq_refl setosa_always_row_wise) as H.
  cbv zeta in H. destruct H as (_ & Hok & _).
  destruct (Hok _ eq_refl) as (Htotal & Hlen & _).
  split; [exact Htotal | exact Hlen].
Defined.

(** C5, where the claim fails: the server is Loaded with an estimator that
    returns a single label for a batch of two inputs; the batch is
    answered 200 with [total_samples] 2 and one result only, the second
    input being dropped without an error. *)
Lemma predict_batch_drops_rows :
  Api.not_loaded (Examples.loaded Examples.one_label_only) = false /\
  snd (Api.predict_batch (Examples.loaded Examples.one_label_only)
         "2024-01-01T00:00:00" [Examples.iris_1; Examples.iris_2])
    = Api.Ok200 {| Api.total_samples := 2;
                   Api.predictions :=
                     [ {| Api.index := 0;
                          Api.item_prediction := "setosa";
                          Api.item_confidence := 8 # 10;
                          Api.item_input_features :=
                            [ ("sepal_length", 51 # 10); ("sepal_width", 35 # 10);
                              ("petal_length", 14 # 10); ("petal_width", 2 # 10) ] |} ];
                   Api.batch_timestamp := "2024-01-01T00:00:00" |}.
Proof. split; reflexivity. Qed.

(** C9 (as the code has it). In the Loaded state an empty batch is handed
    to the estimator as an empty feature array. When both operations
    accept it and return no rows, the answer is an empty result list with
    [total_samples] 0 and no error; when the estimator refuses the empty
    array, the answer is a 400 error; and whatever the estimator does, a
    successful answer to an empty batch holds an empty list. *)
Theorem predict_batch_empty_input st now est :
  Api.MODEL st = Some est -> Api.MODEL_LOADED st = true ->
  (est_predict est [] = inr [] -> est_predict_proba est [] = inr [] ->
     Api.predict_batch st now []
       = ([Api.PredictCall []; Api.PredictProbaCall []],
          Api.Ok200 {| Api.total_samples := 0;
                       Api.predictions := [];
                       Api.batch_timestamp := now |})) /\
  (forall e, est_predict est [] = inl e ->
     Api.predict_batch st now []
       = ([Api.PredictCall []],
          Api.Error 400 ("Batch prediction failed: " +:+ exn_msg e))) /\
  (forall labels e, est_predict est [] = inr labels -> est_predict_proba est [] = inl e ->
     Api.predict_batch st now []
       = ([Api.PredictCall []; Api.PredictProbaCall []],
          Api.Error 400 ("Batch prediction failed: " +:+ exn_msg e))) /\
  (forall body, snd (Api.predict_batch st now []) = Api.Ok200 body ->
     Api.predictions body = [] /\ Api.total_samples body = 0%nat).
Proof.
  intros HM HL.
  assert (Hguard : Api.not_loaded st = false) by exact (not_loaded_false st est HM HL).
  split; [| split; [| split]].
  - intros Hp Hq. unfold Api.predict_batch. rewrite Hguard, HM. simpl.
    unfold Api.tbind. rewrite Hp, Hq. reflexivity.
  - intros e Hp. unfold Api.predict_batch. rewrite Hguard, HM. simpl.
    unfold Api.tbind. rewrite Hp. reflexivity.
  - intros labels e Hp Hq. unfold Api.predict_batch. rewrite Hguard, HM. simpl.
    unfold Api.tbind. rewrite Hp, Hq. reflexivity.
  - intros body. rewrite (predict_batch_loaded st now [] est HM HL). simpl.
    destruct (est_predict est []) as [e | labels]; [discriminate |].
    destruct (est_predict_proba est []) as [e | dists]; [discriminate |].
    destruct (Api.batch_results _ _ _) as [e | results] eqn:Hres; [discriminate |].
    intros [= <-]. simpl.
    apply batch_results_nil_inputs in Hres as [_ ->]. auto.
Qed.

Lemma predict_batch_empty_input_witness :
  Api.MODEL (Examples.loaded Examples.setosa_always) = Some Examples.setosa_always /\
  Api.MODEL_LOADED (Examples.loaded Examples.setosa_always) = true /\
  Api.predict_batch (Examples.loaded Examples.setosa_always) "2024-01-01T00:00:00" []
    = ([Api.PredictCall []; Api.PredictProbaCall []],
       Api.Ok200 {| Api.total_samples := 0;
                    Api.predictions := [];
                    Api.batch_timestamp := "2024-01-01T00:00:00" |}).
Proof.
  split; [reflexivity |]. split; [reflexivity |].
  destruct (predict_batch_empty_input
              (Examples.loaded Examples.setosa_always) "2024-01-01T00:00:00"
              Examples.setosa_always eq_refl eq_refl) as [Hok _].
  exact (Hok eq_refl eq_refl).
Defined.

(** C9, where the claim fails: the server is Loaded, the estimator refuses
    an array without samples, and the empty batch is answered with a 400
    error instead of an empty result list. *)
Lemma predict_batch_empty_input_refused :
  Api.not_loaded (Examples.loaded Examples.refuses_empty) = false /\
  Api.predict_batch (Examples.loaded Examples.refuses_empty) "2024-01-01T00:00:00" []
    = ([Api.PredictCall []],
       Api.Error 400
         "Batch prediction failed: Expected 2D array, got 1D array instead").
Proof. split; reflexivity. Qed.

(* ===================================================================== *)
(** ** Properties of the pipeline stages                                  *)
(* ===================================================================== *)

(** The candidate probe returns the first path of the list that exists. *)
Lemma first_existing_spec fs candidates p :
  FS.first_existing fs candidates = Some p ->
  exists before after,
    candidates = before ++ p :: after /\
    is_Some (fs !! p) /\
    forall q, In q before -> fs !! q = None.
Proof.
  unfold FS.first_existing. induction candidates as [| c cs IH]; simpl; [discriminate |].
  destruct (FS.exists_ fs c) eqn:Hc.
  - intros [= <-]. exists [], cs. split; [reflexivity |]. split.
    + unfold FS.exists_ in Hc. destruct (fs !! c); [eauto | discriminate].
    + intros q [].
  - intros H. destruct (IH H) as (before & after & -> & Hp & Hq).
    exists (c :: before), after. split; [reflexivity |]. split; [exact Hp |].
    intros q [<- | Hin]; [| now apply Hq].
    unfold FS.exists_ in Hc. destruct (fs !! c); [discriminate | reflexivity].
Qed.

(** C2 (as the code has it). The Load stage probes its four candidate
    paths in order. With no candidate present it raises the not-found
    error and relays nothing. With a candidate present, it is the first
    existing one that is read; a file that parses is relayed as it is,
    whatever its row count and its null cells, which are only logged; a
    file that does not parse fails the stage. *)
Theorem load_data_contract fs xcom :
  (FS.first_existing fs Dag.possible_paths = None ->
     Dag.load_data fs xcom
       = (xcom, [], raise "FileNotFoundError" "dataset.csv not found")) /\
  (forall p, FS.first_existing fs Dag.possible_paths = Some p ->
     exists before after,
       Dag.possible_paths = before ++ p :: after /\
       is_Some (fs !! p) /\
       forall q, In q before -> fs !! q = None) /\
  (forall p df,
     FS.first_existing fs Dag.possible_paths = Some p -> fs !! p = Some (FCsv df) ->
     Dag.load_data fs xcom
       = (Dag.xcom_push "load_data" "dataset" (Dag.XDataset df) xcom,
          [ Dag.LogShape (Pandas.nrows df, length (columns df));
            Dag.LogColumns (columns df);
            Dag.LogMissingValues (Pandas.null_count df) ],
          inr (JObj [ ("status", JStr "success");
                      ("shape", JArr [ Dag.jnat (Pandas.nrows df);
                                       Dag.jnat (length (columns df)) ]) ]))) /\
  (forall p,
     FS.first_existing fs Dag.possible_paths = Some p ->
     (forall df, fs !! p <> Some (FCsv df)) ->
     exists e, Dag.load_data fs xcom = (xcom, [], inl e)).
Proof.
  split; [| split; [| split]].
  - intros H. unfold Dag.load_data. rewrite H. reflexivity.
  - intros p H. exact (first_existing_spec fs _ p H).
  - intros p df H Hf. unfold Dag.load_data, FS.read_csv. rewrite H, Hf. reflexivity.
  - intros p H Hf. unfold Dag.load_data, FS.read_csv. rewrite H.
    destruct (fs !! p) as [[| df | | |] |] eqn:E; eauto.
    exfalso. exact (Hf df eq_refl).
Qed.

Lemma load_data_contract_witness :
  FS.first_existing Examples.fs_with_null Dag.possible_paths = Some "./data/dataset.csv" /\
  Examples.fs_with_null !! "./data/dataset.csv" = Some (FCsv Examples.df_with_null) /\
  snd (Dag.load_data Examples.fs_with_null ∅)
    = inr (JObj [ ("status", JStr "success");
                  ("shape", JArr [ Dag.jnat 1; Dag.jnat 5 ]) ]).
Proof.
  split; [reflexivity |]. split; [reflexivity |].
  destruct (load_data_contract Examples.fs_with_null ∅) as (_ & _ & Hread & _).
  rewrite (Hread "./data/dataset.csv" Examples.df_with_null eq_refl eq_refl).
  reflexivity.
Defined.

(** C2, where the claim fails: a dataset without any row and a dataset
    with a null cell both pass the Load stage. *)
Lemma load_data_accepts_empty_and_null :
  Pandas.nrows Examples.df_header_only = 0%nat /\
  snd (Dag.load_data Examples.fs_header_only ∅)
    = inr (JObj [ ("status", JStr "success");
                  ("shape", JArr [ Dag.jnat 0; Dag.jnat 5 ]) ]) /\
  Dag.xcom_pull (fst (fst (Dag.load_data Examples.fs_header_only ∅))) "load_data" "dataset"
    = Some (Dag.XDataset Examples.df_header_only) /\
  Pandas.null_count Examples.df_with_null = 1%nat /\
  snd (Dag.load_data Examples.fs_with_null ∅)
    = inr (JObj [ ("status", JStr "success");
                  ("shape", JArr [ Dag.jnat 1; Dag.jnat 5 ]) ]) /\
  Dag.xcom_pull (fst (fst (Dag.load_data Examples.fs_with_null ∅))) "load_data" "dataset"
    = Some (Dag.XDataset Examples.df_with_null).
Proof. repeat split; reflexivity. Qed.

(** *** The Save stage and the store *)

Lemma write_lookup fs p f fs' q :
  FS.write fs p f = inr fs' ->
  fs' !! q = if decide (p = q) then Some f else fs !! q.
Proof.
  unfold FS.write. destruct (fs !! p) as [[] |]; try discriminate;
    intros [= <-]; apply lookup_insert.
Qed.

Lemma makedirs_lookup fs p fs' q :
  FS.makedirs fs p = inr fs' -> p <> q -> fs' !! q = fs !! q.
Proof.
  unfold FS.makedirs. destruct (fs !! p) as [[] |]; try discriminate;
    intros [= <-] Hne; [reflexivity |]. now apply lookup_insert_ne.
Qed.

(** The candidate probe looks at the candidate paths only. *)
Lemma first_existing_agree fs' fs candidates :
  (forall q, In q candidates -> fs' !! q = fs !! q) ->
  FS.first_existing fs' candidates = FS.first_existing fs candidates.
Proof.
  unfold FS.first_existing. induction candidates as [| c cs IH]; intros H; simpl;
    [reflexivity |].
  assert (Hc : FS.exists_ fs' c = FS.exists_ fs c)
    by (unfold FS.exists_; rewrite (H c); [reflexivity | now left]).
  rewrite Hc. destruct (FS.exists_ fs c); [reflexivity |].
  apply IH. intros q Hq. apply H. now right.
Qed.

(** C3. The Save stage as the scheduler runs it. Whatever the relay and the
    store hold and however far the stage gets, it never returns and
    writes neither the artifact nor the sidecar: once the model directory
    is there, evaluating [joblib.loads] raises AttributeError, which is
    before the first write. No path but the model directory changes, so
    the state "artifact written, sidecar not yet" never arises, and a
    store that held no artifact at any of the server's candidate paths
    still leaves the server unloaded after the stage. *)
Theorem save_model_never_writes xcom fs budget :
  Proc.returned (Proc.run (Dag.task_save_model xcom) budget fs) = None /\
  (forall q, q <> "/opt/airflow/models" ->
     Proc.final_fs (Proc.run (Dag.task_save_model xcom) budget fs) !! q = fs !! q) /\
  Proc.final_fs (Proc.run (Dag.task_save_model xcom) budget fs)
    !! "/opt/airflow/models/model.pkl" = fs !! "/opt/airflow/models/model.pkl" /\
  Proc.final_fs (Proc.run (Dag.task_save_model xcom) budget fs)
    !! "/opt/airflow/models/metrics.json" = fs !! "/opt/airflow/models/metrics.json" /\
  (forall fs1, (1 <= budget)%nat -> FS.makedirs fs "/opt/airflow/models" = inr fs1 ->
     Proc.run (Dag.task_save_model xcom) budget fs
       = Proc.Raised (Exn "AttributeError" "module 'joblib' has no attribute 'loads'") fs1) /\
  (FS.first_existing fs Api.possible_paths = None ->
     Api.load_model (Proc.final_fs (Proc.run (Dag.task_save_model xcom) budget fs))
                    Api.initial = Api.initial).
Proof.
  assert (Hrun : Proc.returned (Proc.run (Dag.task_save_model xcom) budget fs) = None /\
                 forall q, q <> "/opt/airflow/models" ->
                   Proc.final_fs (Proc.run (Dag.task_save_model xcom) budget fs) !! q
                   = fs !! q).
  { unfold Dag.task_save_model, Dag.save_model, Proc.run, Proc.bind, Proc.effect,
      Proc.pure, Dag.model_dir, Dag.joblib_loads_absent, raise.
    destruct budget as [| b]; [split; reflexivity |].
    destruct (FS.makedirs fs "/opt/airflow/models") as [e | fs1] eqn:Hmk;
      [split; reflexivity |].
    split; [reflexivity |]. intros q Hq. simpl.
    eapply makedirs_lookup; [exact Hmk | congruence]. }
  destruct Hrun as [Hret Hsame].
  split; [exact Hret |]. split; [exact Hsame |].
  split; [apply Hsame; discriminate |]. split; [apply Hsame; discriminate |].
  split.
  - intros fs1 Hb Hmk.
    unfold Dag.task_save_model, Dag.save_model, Proc.run, Proc.bind, Proc.effect,
      Proc.pure, Dag.model_dir, Dag.joblib_loads_absent, raise.
    destruct budget as [| b]; [lia |]. rewrite Hmk. reflexivity.
  - intros Hnone. unfold Api.load_model.
    rewrite (first_existing_agree _ fs Api.possible_paths), Hnone; [reflexivity |].
    intros q Hq. apply Hsame. intros ->. simpl in Hq.
    destruct Hq as [H | [H | [H | [H | []]]]]; discriminate.
Qed.

(** *** Sorting and row selection *)

Lemma insert_by_perm {A} (leb : A -> A -> bool) x l :
  Permutation (insert_by leb x l) (x :: l).
Proof.
  induction l as [| y l IH]; simpl; [reflexivity |].
  destruct (leb x y); [reflexivity |].
  rewrite IH. apply perm_swap.
Qed.

Lemma sort_by_perm {A} (leb : A -> A -> bool) l : Permutation (sort_by leb l) l.
Proof.
  induction l as [| x l IH]; simpl; [reflexivity |].
  rewrite insert_by_perm. now constructor.
Qed.

Lemma iloc_seq_from {A} (l : list A) : forall pre,
  Pandas.iloc (pre ++ l) (seq (length pre) (length l)) = l.
Proof.
  unfold Pandas.iloc. induction l as [| x l IH]; intros pre; simpl; [reflexivity |].
  rewrite list_lookup_middle by reflexivity. f_equal.
  specialize (IH (pre ++ [x])). rewrite <- app_assoc, length_app in IH. simpl in IH.
  rewrite Nat.add_1_r in IH. exact IH.
Qed.

Lemma iloc_all {A} (l : list A) : Pandas.iloc l (seq 0 (length l)) = l.
Proof. exact (iloc_seq_from l []). Qed.

Lemma iloc_length {A} (l : list A) idx :
  Forall (fun i => (i < length l)%nat) idx -> length (Pandas.iloc l idx) = length idx.
Proof.
  unfold Pandas.iloc. induction 1 as [| i idx Hi _ IH]; simpl; [reflexivity |].
  destruct (lookup_lt_is_Some_2 l i Hi) as [x Hx]. rewrite Hx. simpl. f_equal. exact IH.
Qed.

Lemma arrangement_perm rank seed labels n :
  Permutation (Sklearn.arrangement rank seed labels n) (seq 0 n).
Proof. apply sort_by_perm. Qed.

(** Cutting an arrangement of the positions of [l] after [k] places splits
    [l] into two parts of [k] and [length l - k] elements that together
    hold every element of [l] once. *)
Lemma iloc_cut {A} (l : list A) order k :
  Permutation order (seq 0 (length l)) -> (k <= length l)%nat ->
  length (Pandas.iloc l (firstn k order)) = k /\
  length (Pandas.iloc l (skipn k order)) = (length l - k)%nat /\
  Permutation (Pandas.iloc l (skipn k order) ++ Pandas.iloc l (firstn k order)) l.
Proof.
  intros Hperm Hk.
  assert (Hlen : length order = length l)
    by (rewrite (Permutation_length Hperm); apply length_seq).
  assert (Hall : Forall (fun i => (i < length l)%nat) order).
  { eapply Permutation_Forall; [symmetry; exact Hperm |].
    apply List.Forall_forall. intros i Hi. apply in_seq in Hi. lia. }
  split; [| split].
  - rewrite iloc_length; [rewrite length_firstn; lia |].
    rewrite <- (firstn_skipn k order) in Hall. now apply Forall_app in Hall.
  - rewrite iloc_length; [rewrite length_skipn; lia |].
    rewrite <- (firstn_skipn k order) in Hall. now apply Forall_app in Hall.
  - transitivity (Pandas.iloc l (seq 0 (length l))); [| now rewrite iloc_all].
    unfold Pandas.iloc. rewrite <- omap_app.
    apply omap_Permutation.
    rewrite Permutation_app_comm, firstn_skipn. exact Hperm.
Qed.

Lemma n_test_of_fifth n :
  (n <= 5 * Sklearn.n_test_of (2 # 10) n < n + 5)%nat.
Proof.
  unfold Sklearn.n_test_of, Qceiling, Qfloor, Qopp, Qmult, inject_Z.
  simpl Qnum. simpl Qden.
  Z.to_euclidean_division_equations. lia.
Qed.

(** What a successful call of [train_test_split] returns. *)
Lemma train_test_split_parts rank ambient X y test_size random_state stratify
    X_train X_test y_train y_test :
  Sklearn.train_test_split rank ambient X y test_size random_state stratify
    = inr (X_train, X_test, y_train, y_test) ->
  let k := Sklearn.n_test_of test_size (length X) in
  length y = length X /\ (k < length X)%nat /\
  length X_test = k /\ length X_train = (length X - k)%nat /\
  length y_test = k /\ length y_train = (length X - k)%nat /\
  Permutation (X_train ++ X_test) X /\ Permutation (y_train ++ y_test) y.
Proof.
  unfold Sklearn.train_test_split.
  destruct (Nat.eqb (length y) (length X)) eqn:Hy; simpl; [| discriminate].
  apply Nat.eqb_eq in Hy.
  destruct (Qle_bool test_size 0 || Qle_bool 1 test_size); [discriminate |].
  destruct (Nat.eqb (length X - _) 0) eqn:Hn; [discriminate |].
  apply Nat.eqb_neq in Hn.
  destruct (match stratify with Some _ => _ | None => false end); [discriminate |].
  intros [= <- <- <- <-]. cbv zeta.
  set (k := Sklearn.n_test_of test_size (length X)) in *.
  set (order := Sklearn.arrangement rank _ _ (length X)).
  assert (Hperm : Permutation order (seq 0 (length X))) by apply arrangement_perm.
  assert (Hk : (k <= length X)%nat) by lia.
  destruct (iloc_cut X order k Hperm Hk) as (H1 & H2 & H3).
  rewrite <- Hy in Hperm, Hk.
  destruct (iloc_cut y order k Hperm Hk) as (H4 & H5 & H6).
  rewrite Hy in H5. repeat split; auto. lia.
Qed.

Lemma train_test_split_succeeds rank ambient X y test_size random_state :
  length y = length X ->
  Qle_bool test_size 0 = false -> Qle_bool 1 test_size = false ->
  (Sklearn.n_test_of test_size (length X) < length X)%nat ->
  Sklearn.stratification_ok y (length X - Sklearn.n_test_of test_size (length X))
                            (Sklearn.n_test_of test_size (length X)) = true ->
  exists parts,
    Sklearn.train_test_split rank ambient X y test_size random_state (Some y) = inr parts.
Proof.
  intros Hy H0 H1 Hk Hs. unfold Sklearn.train_test_split.
  rewrite Hy, Nat.eqb_refl, H0, H1. simpl.
  destruct (Nat.eqb _ 0) eqn:Hn; [apply Nat.eqb_eq in Hn; lia |].
  rewrite Hs. simpl. eauto.
Qed.

(** *** The table operations of the split *)

Lemma drop_rows name df X :
  Pandas.drop name df = inr X -> length (rows X) = Pandas.nrows df.
Proof.
  unfold Pandas.drop. destruct (Pandas.has_column name df); [| discriminate].
  intros [= <-]. simpl. apply length_map.
Qed.

Lemma column_length name df y :
  Pandas.column name df = inr y -> length y = Pandas.nrows df.
Proof.
  unfold Pandas.column. destruct (Pandas.position name (columns df)); [| discriminate].
  intros [= <-]. apply length_map.
Qed.

Lemma position_has_column name cols i :
  Pandas.position name cols = Some i -> existsb (String.eqb name) cols = true.
Proof.
  revert i. induction cols as [| c cols IH]; simpl; [discriminate |].
  destruct (String.eqb name c); [reflexivity |]. intros i.
  destruct (Pandas.position name cols) as [j |]; [| discriminate]. eauto.
Qed.

(** C4. Whenever the Train stage's split returns, the two parts together
    hold every row of the dataset once, so their sizes add up to the
    dataset's; the test part has [ceil(0.2 * n)] rows; labels are cut like
    the rows. The result does not depend on the ambient generator, only
    on the fixed seed and the input, and the stand-alone script performs
    the same split. A dataset of 30 rows in three classes of ten is split,
    without error, into 24 training and 6 test rows. *)
Theorem train_split_sizes rank ambient df :
  (forall X y X_train X_test y_train y_test,
     Dag.split_stage rank ambient df = inr (X, y, (X_train, X_test, y_train, y_test)) ->
     (length X_train + length X_test = Pandas.nrows df)%nat /\
     length y_train = length X_train /\ length y_test = length X_test /\
     length X_test
       = Z.to_nat (Qceiling ((2 # 10) * inject_Z (Z.of_nat (Pandas.nrows df)))) /\
     (Pandas.nrows df <= 5 * length X_test < Pandas.nrows df + 5)%nat /\
     Permutation (X_train ++ X_test) (rows X) /\
     Permutation (y_train ++ y_test) y) /\
  (forall ambient',
     Dag.split_stage rank ambient' df = Dag.split_stage rank ambient df) /\
  Train.split rank ambient df = Dag.split_stage rank ambient df /\
  (forall y,
     Pandas.column "species" df = inr y ->
     Pandas.nrows df = 30%nat ->
     length (Pandas.unique y) = 3%nat ->
     (forall c, In c (Pandas.unique y) -> Pandas.count c y = 10%nat) ->
     exists X X_train X_test y_train y_test,
       Dag.split_stage rank ambient df = inr (X, y, (X_train, X_test, y_train, y_test)) /\
       length X_train = 24%nat /\ length X_test = 6%nat).
Proof.
  split; [| split; [| split]].
  - intros X y X_train X_test y_train y_test. unfold Dag.split_stage.
    destruct (Pandas.drop "species" df) as [e | X0] eqn:HX; [discriminate |].
    destruct (Pandas.column "species" df) as [e | y0] eqn:Hy; [discriminate |]. simpl.
    destruct (Sklearn.train_test_split _ _ _ _ _ _ _) as [e | parts] eqn:Hs;
      [discriminate |].
    simpl. intros [= HX0 Hy0 Hparts]. subst X0 y0 parts.
    apply train_test_split_parts in Hs. cbv zeta in Hs.
    destruct Hs as (_ & Hk & H1 & H2 & H3 & H4 & H5 & H6).
    rewrite (drop_rows _ _ _ HX) in *.
    pose proof (n_test_of_fifth (Pandas.nrows df)) as Hfifth.
    unfold Sklearn.n_test_of in *. rewrite H1.
    repeat split; auto; lia.
  - intros ambient'. reflexivity.
  - reflexivity.
  - intros y Hy Hn Hcls Hcount. unfold Dag.split_stage.
    destruct (Pandas.drop "species" df) as [e | X] eqn:HX.
    { unfold Pandas.drop, Pandas.column, Pandas.has_column in HX, Hy.
      destruct (Pandas.position "species" (columns df)) as [i |] eqn:Hpos;
        [| discriminate].
      rewrite (position_has_column _ _ _ Hpos) in HX. discriminate. }
    rewrite Hy. simpl.
    assert (HlenX : length (rows X) = 30%nat) by (rewrite (drop_rows _ _ _ HX); exact Hn).
    assert (Hleny : length y = length (rows X))
      by (rewrite (column_length _ _ _ Hy), HlenX; exact Hn).
    assert (Hk : Sklearn.n_test_of (2 # 10) (length (rows X)) = 6%nat)
      by (rewrite HlenX; reflexivity).
    destruct (train_test_split_succeeds rank ambient (rows X) y (2 # 10) (Some 42%Z))
      as [[[[X_train X_test] y_train] y_test] Hs]; auto.
    + rewrite Hk, HlenX. lia.
    + rewrite Hk, HlenX. unfold Sklearn.stratification_ok. rewrite Hcls.
      apply andb_true_intro. split; [apply andb_true_intro; split |];
        [| reflexivity | reflexivity].
      apply forallb_forall. intros c Hc. rewrite (Hcount c Hc). reflexivity.
    + rewrite Hs. simpl. exists X, X_train, X_test, y_train, y_test.
      split; [reflexivity |].
      apply train_test_split_parts in Hs. cbv zeta in Hs.
      destruct Hs as (_ & _ & H1 & H2 & _). rewrite Hk, HlenX in *.
      split; [exact H2 | exact H1].
Qed.

Lemma train_split_sizes_witness :
  exists y,
    Pandas.column "species" Examples.df_iris_30 = inr y /\
    Pandas.nrows Examples.df_iris_30 = 30%nat /\
    length (Pandas.unique y) = 3%nat /\
    exists X X_train X_test y_train y_test,
      Dag.split_stage Examples.rank_in_place 0 Examples.df_iris_30
        = inr (X, y, (X_train, X_test, y_train, y_test)) /\
      length X_train = 24%nat /\ length X_test = 6%nat.
Proof.
  eexists. split; [reflexivity |]. split; [reflexivity |]. split; [reflexivity |].
  destruct (train_split_sizes Examples.rank_in_place 0 Examples.df_iris_30)
    as (_ & _ & _ & Hbalanced).
  apply Hbalanced; try reflexivity.
  intros c Hc. vm_compute in Hc.
  destruct Hc as [<- | [<- | [<- | []]]]; reflexivity.
Defined.

(** *** Feature importance: the mapping and the logged ranking *)

Lemma insert_by_sorted {A} (leb : A -> A -> bool) (R : A -> A -> Prop) :
  (forall a b, leb a b = true -> R a b) ->
  (forall a b, leb a b = false -> R b a) ->
  forall x l, Sorted R l -> Sorted R (insert_by leb x l).
Proof.
  intros Ht Hf x l Hs. induction Hs as [| y l Hs IH Hhd]; simpl.
  - repeat constructor.
  - destruct (leb x y) eqn:E.
    + constructor; [now constructor |]. constructor. now apply Ht.
    + constructor; [exact IH |].
      destruct Hhd as [| z l' Hyz]; simpl.
      * constructor. now apply Hf.
      * destruct (leb x z); constructor; [now apply Hf | exact Hyz].
Qed.

Lemma sort_by_sorted {A} (leb : A -> A -> bool) (R : A -> A -> Prop) :
  (forall a b, leb a b = true -> R a b) ->
  (forall a b, leb a b = false -> R b a) ->
  forall l, Sorted R (sort_by leb l).
Proof.
  intros Ht Hf l. induction l as [| x l IH]; simpl; [constructor |].
  now apply insert_by_sorted.
Qed.

Lemma sorted_desc_sorted items :
  Sorted (fun a b : string * Q => (snd b <= snd a)%Q) (sorted_desc items).
Proof.
  apply sort_by_sorted.
  - intros a b H. now apply Qle_bool_iff.
  - intros a b H. apply Qlt_le_weak, Qnot_le_lt. intros C.
    apply Qle_bool_iff in C. congruence.
Qed.

Lemma dict_set_fresh {V} k (v : V) d :
  ~ In k (map fst d) -> dict_set k v d = d ++ [(k, v)].
Proof.
  induction d as [| [k' v'] d IH]; simpl; intros Hk; [reflexivity |].
  destruct (String.eqb_spec k k') as [-> | Hne]; [exfalso; auto |].
  rewrite IH; auto.
Qed.

Lemma fold_dict_set_fresh {V} (pairs : list (string * V)) : forall acc,
  List.NoDup (map fst (acc ++ pairs)) ->
  fold_left (fun d kv => dict_set (fst kv) (snd kv) d) pairs acc = acc ++ pairs.
Proof.
  induction pairs as [| [k v] pairs IH]; intros acc Hnd; simpl.
  - now rewrite app_nil_r.
  - rewrite dict_set_fresh.
    + rewrite IH; rewrite <- app_assoc; [reflexivity | exact Hnd].
    + rewrite map_app in Hnd. simpl in Hnd.
      apply NoDup_remove_2 in Hnd. intros Hin. apply Hnd.
      apply in_or_app. now left.
Qed.

Lemma NoDup_fst_combine {A B} (a : list A) (b : list B) :
  List.NoDup a -> List.NoDup (map fst (combine a b)).
Proof.
  intros Ha. revert b. induction Ha as [| x a Hx Ha IH]; intros [| y b]; simpl;
    try constructor; auto.
  intros Hin. apply Hx.
  apply in_map_iff in Hin as [[x' y'] [Heq Hin]]. simpl in Heq. subst x'.
  now apply in_combine_l in Hin.
Qed.

(** With distinct column names the mapping lists the columns in their
    own order. *)
Lemma dict_of_pairs_columns (cols : list string) (imps : list Q) :
  List.NoDup cols -> dict_of_pairs (combine cols imps) = combine cols imps.
Proof.
  intros Hnd. unfold dict_of_pairs.
  rewrite (fold_dict_set_fresh (combine cols imps) []); [reflexivity |].
  simpl. now apply NoDup_fst_combine.
Qed.

(** What a successful body of the Train stage has computed. *)
Lemma train_body_importance rank fit read_json ambient xcom metrics model logged returned :
  Dag.train_body rank fit read_json ambient xcom = inr (metrics, model, logged, returned) ->
  exists df X Xn y_train,
    Dag.pd_read_json read_json (Dag.xcom_pull xcom "load_data" "dataset") = inr df /\
    Pandas.drop "species" df = inr X /\
    fit 42%Z Xn y_train = inr model /\
    Dag.py_index metrics "feature_importance"
      = inr (JObj (map (fun kv => (fst kv, JNum (snd kv)))
                       (Dag.feature_importance_of X model))) /\
    logged = map (fun kv => Dag.LogImportance (fst kv) (snd kv))
                 (sorted_desc (Dag.feature_importance_of X model)).
Proof.
  unfold Dag.train_body.
  destruct (Dag.pd_read_json _ _) as [e | df] eqn:Hdf; [discriminate |]. simpl.
  unfold Dag.split_stage.
  destruct (Pandas.drop "species" df) as [e | X] eqn:HX; [discriminate |]. simpl.
  destruct (Pandas.column "species" df) as [e | y]; [discriminate |]. simpl.
  destruct (Sklearn.train_test_split _ _ _ _ _ _ _)
    as [e | [[[X_train X_test] y_train] y_test]]; [discriminate |]. simpl.
  destruct (Pandas.numeric X_train) as [e | Xn_train]; [discriminate |]. simpl.
  destruct (fit 42%Z Xn_train y_train) as [e | model0] eqn:Hfit; [discriminate |]. simpl.
  destruct (est_predict model0 Xn_train) as [e | y_pred_train]; [discriminate |]. simpl.
  destruct (Pandas.numeric X_test) as [e | Xn_test]; [discriminate |]. simpl.
  destruct (est_predict model0 Xn_test) as [e | y_pred_test]; [discriminate |]. simpl.
  destruct (Sklearn.accuracy_score y_train y_pred_train) as [e | a1]; [discriminate |].
  simpl.
  destruct (Sklearn.accuracy_score y_test y_pred_test) as [e | a2]; [discriminate |].
  simpl. intros [= <- <- <- <-].
  exists df, X, Xn_train, y_train. repeat split; auto.
Qed.

(** The relay, the log and the result of the Train stage once its body has
    succeeded: the metrics are relayed as soon as they are encoded,
    whatever the serialisation of the model does afterwards. *)
Lemma train_model_after_body rank fit read_json joblib_dumps ambient xcom
    metrics model logged returned :
  Dag.train_body rank fit read_json ambient xcom = inr (metrics, model, logged, returned) ->
  snd (fst (Dag.train_model rank fit read_json joblib_dumps ambient xcom)) = logged /\
  (encodable metrics = true ->
     Dag.xcom_pull (fst (fst (Dag.train_model rank fit read_json joblib_dumps ambient xcom)))
                   "train_model" "metrics" = Some (Dag.XJson metrics) /\
     snd (Dag.train_model rank fit read_json joblib_dumps ambient xcom)
       = match joblib_dumps model with
         | inl e => inl e
         | inr _ => inr returned
         end) /\
  (encodable metrics = false ->
     Dag.train_model rank fit read_json joblib_dumps ambient xcom
       = (xcom, logged, raise "TypeError" "Object of type int64 is not JSON serializable")).
Proof.
  intros Hbody. unfold Dag.train_model, json_encode. rewrite Hbody.
  destruct (encodable metrics).
  - destruct (joblib_dumps model) as [e | bytes]; simpl;
      (split; [reflexivity |]); (split; [| discriminate]); intros _;
      unfold Dag.xcom_pull, Dag.xcom_push.
    + split; [apply lookup_insert_eq | reflexivity].
    + split; [| reflexivity].
      rewrite lookup_insert_ne by discriminate. apply lookup_insert_eq.
  - simpl. split; [reflexivity |]. split; [discriminate | reflexivity].
Qed.

Lemma length_filter_le {A} (f : A -> bool) (l : list A) :
  (length (List.filter f l) <= length l)%nat.
Proof. induction l as [| a l IH]; simpl; [lia |]. destruct (f a); simpl; lia. Qed.

(** An accuracy is a fraction of the samples. *)
Lemma accuracy_score_range y_true y_pred a :
  Sklearn.accuracy_score y_true y_pred = inr a -> (0 <= a <= 1)%Q.
Proof.
  unfold Sklearn.accuracy_score.
  destruct (negb (Nat.eqb (length y_true) (length y_pred))); [discriminate |].
  intros [= <-].
  match goal with |- context [List.filter ?f ?l] =>
    pose proof (length_filter_le f l) as Hhits; set (hits := length (List.filter f l)) in *
  end.
  rewrite length_combine in Hhits.
  unfold Qle. cbn [Qnum Qden]. split; [lia |].
  destruct (length y_true) as [| n].
  - assert (hits = 0%nat) as -> by lia. simpl. lia.
  - rewrite <- Pos.of_nat_succ, Zpos_P_of_succ_nat. lia.
Qed.

Lemma unit_no_overflow a : (0 <= a <= 1)%Q -> float_overflow a = false.
Proof.
  intros [H0 H1]. unfold float_overflow.
  assert (Hlt : (1 < float_limit)%Q) by (vm_compute; reflexivity).
  assert (Hneg : (- float_limit < 0)%Q) by (vm_compute; reflexivity).
  apply orb_false_intro.
  - destruct (Qle_bool float_limit a) eqn:E; [| reflexivity].
    apply Qle_bool_iff in E. exfalso.
    apply (Qlt_not_le _ _ Hlt). now apply Qle_trans with a.
  - destruct (Qle_bool a (- float_limit)) eqn:E; [| reflexivity].
    apply Qle_bool_iff in E. exfalso.
    apply (Qlt_not_le _ _ Hneg). now apply Qle_trans with a.
Qed.

(** What a completed run of the script has computed and written. *)
Lemma train_main_returned rank fit ambient budget fs m table fs' :
  Proc.run (Train.main rank fit ambient) budget fs = Proc.Returned (m, table) fs' ->
  exists X y X_train X_test y_train Xn_train model a1 a2,
    fit 42%Z Xn_train y_train = inr model /\
    Pandas.numeric X_train = inr Xn_train /\
    m = Train.metrics a1 a2 X y X_train X_test /\
    (0 <= a1 <= 1)%Q /\
    encodable m = true /\
    Train.feature_importance X model = inr table /\
    fs' !! "models/model.pkl" = Some (FPickle (Some model)) /\
    fs' !! "models/metrics.json" = Some (FJson m).
Proof.
  unfold Train.main, Proc.run, Proc.bind, Proc.effect, Proc.read, Proc.pure, Proc.ret,
    FS.open_w.
  destruct budget as [| b1]; [discriminate |].
  destruct (FS.makedirs fs "models") as [e | fs1]; [discriminate |].
  destruct (FS.read_csv fs1 "data/dataset.csv") as [e | df]; [discriminate |].
  destruct (Train.split rank ambient df)
    as [e | [[X y] [[[X_train X_test] y_train] y_test]]]; [discriminate |].
  destruct (Pandas.numeric X_train) as [e | Xn_train] eqn:Hnum; [discriminate |].
  destruct (fit 42%Z Xn_train y_train) as [e | model] eqn:Hfit; [discriminate |].
  destruct (Pandas.numeric X_test) as [e | Xn_test]; [discriminate |].
  destruct (est_predict model Xn_test) as [e | y_pred]; [discriminate |].
  destruct (est_predict model Xn_train) as [e | y_pred_train]; [discriminate |].
  destruct (Sklearn.accuracy_score y_train y_pred_train) as [e | a1] eqn:Ha1;
    [discriminate |].
  destruct (Sklearn.accuracy_score y_test y_pred) as [e | a2]; [discriminate |].
  destruct (Train.feature_importance X model) as [e | tbl] eqn:Htbl; [discriminate |].
  destruct b1 as [| b2]; [discriminate |].
  destruct (FS.write fs1 "models/model.pkl" FOther) as [e | fs2] eqn:Ho1; [discriminate |].
  destruct b2 as [| b3]; [discriminate |].
  destruct (FS.write fs2 "models/model.pkl" _) as [e | fs3] eqn:Hw1; [discriminate |].
  destruct b3 as [| b4]; [discriminate |].
  destruct (FS.write fs3 "models/metrics.json" FOther) as [e | fs4] eqn:Ho2;
    [discriminate |].
  unfold json_encode.
  destruct (encodable (Train.metrics a1 a2 X y X_train X_test)) eqn:Henc;
    [| discriminate].
  destruct b4 as [| b5]; [discriminate |].
  destruct (FS.write fs4 "models/metrics.json" _) as [e | fs5] eqn:Hw2; [discriminate |].
  intros [= <- <- <-].
  exists X, y, X_train, X_test, y_train, Xn_train, model, a1, a2.
  split; [exact Hfit |]. split; [exact Hnum |]. split; [reflexivity |].
  split; [exact (accuracy_score_range _ _ _ Ha1) |].
  split; [exact Henc |]. split; [exact Htbl |]. split.
  - rewrite (write_lookup _ _ _ _ "models/model.pkl" Hw2).
    destruct (decide _); [discriminate |].
    rewrite (write_lookup _ _ _ _ "models/model.pkl" Ho2).
    destruct (decide _); [discriminate |].
    rewrite (write_lookup _ _ _ _ "models/model.pkl" Hw1).
    destruct (decide _); [reflexivity | contradiction].
  - rewrite (write_lookup _ _ _ _ "models/metrics.json" Hw2).
    destruct (decide _); [reflexivity | contradiction].
Qed.

(** C8 (as the code has it). Once the body of the Train stage has
    succeeded, the metrics hold a [feature_importance] mapping from each
    feature column to the importance the fitted model gives it, built from
    the columns in their own order (for distinct column names it is
    exactly the column list zipped with the importances); the ranking by
    descending importance exists only in the log lines, which list the
    same entries sorted. These metrics are what the stage relays: they are
    in the relay as soon as they are encoded, whatever the serialisation
    of the model does afterwards, and when the encoder refuses them
    nothing is relayed. The metrics that a completed run of the
    stand-alone script saves hold no importance mapping at all; its sorted
    table is only printed. *)
Theorem train_metrics_importance rank fit read_json joblib_dumps ambient xcom
    metrics model logged returned :
  Dag.train_body rank fit read_json ambient xcom = inr (metrics, model, logged, returned) ->
  (exists df X Xn y_train,
     Dag.pd_read_json read_json (Dag.xcom_pull xcom "load_data" "dataset") = inr df /\
     Pandas.drop "species" df = inr X /\
     fit 42%Z Xn y_train = inr model /\
     Dag.py_index metrics "feature_importance"
       = inr (JObj (map (fun kv => (fst kv, JNum (snd kv)))
                        (dict_of_pairs (combine (columns X) (feature_importances_ model))))) /\
     (List.NoDup (columns X) ->
      dict_of_pairs (combine (columns X) (feature_importances_ model))
        = combine (columns X) (feature_importances_ model)) /\
     snd (fst (Dag.train_model rank fit read_json joblib_dumps ambient xcom))
       = map (fun kv => Dag.LogImportance (fst kv) (snd kv))
             (sorted_desc
                (dict_of_pairs (combine (columns X) (feature_importances_ model)))) /\
     Sorted (fun a b : string * Q => (snd b <= snd a)%Q)
            (sorted_desc
               (dict_of_pairs (combine (columns X) (feature_importances_ model)))) /\
     Permutation
       (sorted_desc (dict_of_pairs (combine (columns X) (feature_importances_ model))))
       (dict_of_pairs (combine (columns X) (feature_importances_ model)))) /\
  (encodable metrics = true ->
     Dag.xcom_pull (fst (fst (Dag.train_model rank fit read_json joblib_dumps ambient xcom)))
                   "train_model" "metrics" = Some (Dag.XJson metrics)) /\
  (encodable metrics = false ->
     Dag.train_model rank fit read_json joblib_dumps ambient xcom
       = (xcom, logged, raise "TypeError" "Object of type int64 is not JSON serializable")) /\
  (forall budget fs m table fs',
     Proc.run (Train.main rank fit ambient) budget fs = Proc.Returned (m, table) fs' ->
     fs' !! "models/metrics.json" = Some (FJson m) /\
     Dag.py_index m "feature_importance" = raise "KeyError" "feature_importance" /\
     Sorted (fun a b : string * Q => (snd b <= snd a)%Q) table /\
     exists X model' Xn y_train,
       fit 42%Z Xn y_train = inr model' /\
       Dag.py_index m "features_used" = inr (JArr (map JStr (columns X))) /\
       Permutation table (combine (columns X) (feature_importances_ model'))).
Proof.
  intros Hbody.
  destruct (train_body_importance _ _ _ _ _ _ _ _ _ Hbody)
    as (df & X & Xn & y_train & Hdf & HX & Hfit & Hfi & Hlog).
  destruct (train_model_after_body rank fit read_json joblib_dumps ambient xcom
              _ _ _ _ Hbody) as (Hlogged & Henc & Hrefused).
  split; [| split; [| split]].
  - exists df, X, Xn, y_train.
    split; [exact Hdf |]. split; [exact HX |]. split; [exact Hfit |].
    split; [exact Hfi |].
    split; [apply dict_of_pairs_columns |].
    split; [rewrite Hlogged; exact Hlog |].
    split; [apply sorted_desc_sorted | apply sort_by_perm].
  - intros H. exact (proj1 (Henc H)).
  - exact Hrefused.
  - intros budget fs m table fs' Hrun.
    destruct (train_main_returned _ _ _ _ _ _ _ _ Hrun)
      as (X' & y & X_train & X_test & ytr & Xn_train & model' & a1 & a2
          & Hfit' & _ & Hm & _ & _ & Htable & _ & Hmet).
    split; [exact Hmet |]. split; [subst m; reflexivity |].
    unfold Train.feature_importance in Htable.
    destruct (Nat.eqb _ _); [| discriminate]. injection Htable as <-.
    split; [apply sorted_desc_sorted |].
    exists X', model', Xn_train, ytr.
    split; [exact Hfit' |]. split; [subst m; reflexivity |]. apply sort_by_perm.
Qed.

Lemma example_train_body :
  exists metrics model logged returned,
    Dag.train_body Examples.rank_in_place Examples.fit_setosa Examples.read_unchanged 0
                   Examples.xcom_loaded = inr (metrics, model, logged, returned) /\
    encodable metrics = true.
Proof. eexists _, _, _, _. split; vm_compute; reflexivity. Qed.

Lemma train_metrics_importance_witness :
  exists metrics model logged returned,
    Dag.train_body Examples.rank_in_place Examples.fit_setosa Examples.read_unchanged 0
                   Examples.xcom_loaded = inr (metrics, model, logged, returned) /\
    encodable metrics = true /\
    Dag.xcom_pull
      (fst (fst (Dag.task_train_model Examples.rank_in_place Examples.fit_setosa
                   Examples.read_unchanged 0 Examples.xcom_loaded)))
      "train_model" "metrics" = Some (Dag.XJson metrics) /\
    exists fields, Dag.py_index metrics "feature_importance" = inr (JObj fields).
Proof.
  destruct example_train_body as (metrics & model & logged & returned & Hbody & Henc).
  exists metrics, model, logged, returned.
  split; [exact Hbody |]. split; [exact Henc |].
  destruct (train_metrics_importance _ _ _ Dag.joblib_dumps_absent _ _ _ _ _ _ Hbody)
    as ((df & X & Xn & y_train & _ & _ & _ & Hfi & _) & Hrelay & _).
  split; [exact (Hrelay Henc) |]. eexists. exact Hfi.
Defined.

(** C8, where the claim fails: the Train stage, run on ten iris records
    with a model whose importances rise from the first column to the last,
    relays them in column order, lowest first; only the log has them
    highest first. (The stage then ends in the AttributeError of the
    missing [joblib.dumps].) The stand-alone script, run to its end on the
    same records, saves metrics without any importance mapping. *)
Lemma train_metrics_importance_in_column_order :
  payload_importances
    (fst (fst (Dag.task_train_model Examples.rank_in_place Examples.fit_setosa
                 Examples.read_unchanged 0 Examples.xcom_loaded)))
    = [1 # 10; 2 # 10; 3 # 10; 4 # 10] /\
  descending
    (payload_importances
       (fst (fst (Dag.task_train_model Examples.rank_in_place Examples.fit_setosa
                    Examples.read_unchanged 0 Examples.xcom_loaded)))) = false /\
  snd (fst (Dag.task_train_model Examples.rank_in_place Examples.fit_setosa
              Examples.read_unchanged 0 Examples.xcom_loaded))
    = [ Dag.LogImportance "petal_width" (4 # 10);
        Dag.LogImportance "petal_length" (3 # 10);
        Dag.LogImportance "sepal_width" (2 # 10);
        Dag.LogImportance "sepal_length" (1 # 10) ] /\
  snd (Dag.task_train_model Examples.rank_in_place Examples.fit_setosa
         Examples.read_unchanged 0 Examples.xcom_loaded)
    = raise "AttributeError" "module 'joblib' has no attribute 'dumps'" /\
  option_map (fun r : json * list (string * Q) =>
                Dag.py_index (fst r) "feature_importance")
             (Proc.returned
                (Proc.run (Train.main Examples.rank_in_place Examples.fit_setosa 0)
                          5 Examples.fs_script))
    = Some (raise "KeyError" "feature_importance").
Proof. repeat split; vm_compute; reflexivity. Qed.

(* ===================================================================== *)
(** ** Further properties of the inference server                         *)
(* ===================================================================== *)

(** *** Startup *)

(** X1. With none of the four candidate paths present, startup leaves the
    globals as they were at import; health then answers "unhealthy" with
    [model_loaded] false and no version, and the model-info, single and
    batch prediction requests are all answered 503 without touching any
    estimator. *)
Theorem startup_without_artifact fs now x xs :
  FS.first_existing fs Api.possible_paths = None ->
  Api.load_model fs Api.initial = Api.initial /\
  Api.health_check (Api.load_model fs Api.initial) now
    = Api.Ok200 {| Api.status := "unhealthy";
                   Api.model_loaded := false;
                   Api.health_model_version := None;
                   Api.health_timestamp := now;
                   Api.message := "API is running but model is not loaded" |} /\
  Api.get_model_info (Api.load_model fs Api.initial) now
    = Api.Error 503 "Model not loaded" /\
  Api.predict (Api.load_model fs Api.initial) now x
    = ([], Api.Error 503 "Model is not loaded. Please check server logs.") /\
  Api.predict_batch (Api.load_model fs Api.initial) now xs
    = ([], Api.Error 503 "Model is not loaded").
Proof.
  intros H. unfold Api.load_model. rewrite H. repeat split; reflexivity.
Qed.

Lemma startup_without_artifact_witness :
  FS.first_existing ∅ Api.possible_paths = None /\
  Api.load_model ∅ Api.initial = Api.initial /\
  Api.get_model_info (Api.load_model ∅ Api.initial) "2024-01-01T00:00:00"
    = Api.Error 503 "Model not loaded".
Proof.
  assert (Hnone : FS.first_existing ∅ Api.possible_paths = None) by reflexivity.
  split; [exact Hnone |].
  destruct (startup_without_artifact ∅ "2024-01-01T00:00:00" Examples.iris_1 [] Hnone)
    as (Hst & _ & Hinfo & _).
  split; [exact Hst | exact Hinfo].
Defined.

Lemma log_metadata_passes doc :
  (exists u, Api.log_metadata doc = inr u) <-> sidecar_passes doc.
Proof.
  unfold Api.log_metadata, sidecar_passes, py_get. split.
  - intros [u H]. destruct doc as [| b | q | s | items | fields | z];
      try discriminate.
    exists fields. split; [reflexivity |]. simpl in H.
    destruct (assoc_get "train_accuracy" fields)
      as [[| b | q | s | items | fs' | z] |];
      simpl in H; try discriminate; try exact I.
    destruct (float_overflow q); [discriminate | reflexivity].
  - intros (fields & -> & H). simpl.
    destruct (assoc_get "train_accuracy" fields)
      as [[| b | q | s | items | fs' | z] |];
      simpl; try contradiction; eauto.
    rewrite H. eauto.
Qed.

(** X2. Startup ends with the flag set exactly when the first existing
    candidate path holds a file that deserialises, and next to it there is
    either no sidecar, or a sidecar that parses to a JSON object whose
    [train_accuracy], if present, is a boolean or a number that a float can
    hold (an integer of 2^1024 - 2^970 or more in magnitude makes the log
    line raise OverflowError). Later candidates are never tried. *)
Theorem startup_loaded_iff fs :
  Api.MODEL_LOADED (Api.load_model fs Api.initial) = true <->
  exists p obj,
    FS.first_existing fs Api.possible_paths = Some p /\
    fs !! p = Some (FPickle obj) /\
    (fs !! (Path.dirname p +:+ "/metrics.json") = None \/
     exists doc,
       fs !! (Path.dirname p +:+ "/metrics.json") = Some (FJson doc) /\
       sidecar_passes doc).
Proof.
  unfold Api.load_model, FS.joblib_load, FS.exists_, FS.json_load. split.
  - destruct (FS.first_existing fs Api.possible_paths) as [p |]; [| discriminate].
    destruct (fs !! p) as [[| df | obj | doc | ] |] eqn:Hf; simpl; try discriminate.
    destruct (fs !! (Path.dirname p +:+ "/metrics.json"))
      as [[| df | obj' | doc | ] |] eqn:Hs; simpl; try discriminate.
    + destruct (Api.log_metadata doc) as [e | u] eqn:Hlog; simpl; [discriminate |].
      intros _. exists p, obj. split; [reflexivity |]. split; [exact Hf |].
      right. exists doc. split; [exact Hs |].
      apply log_metadata_passes. eauto.
    + intros _. exists p, obj. split; [reflexivity |]. split; [exact Hf |].
      left. exact Hs.
  - intros (p & obj & -> & -> & [-> | (doc & -> & Hdoc)]); simpl; [reflexivity |].
    apply log_metadata_passes in Hdoc as [u ->]. reflexivity.
Qed.

(** A sidecar whose recorded accuracy is the integer 10^400 parses, yet
    the startup log line cannot format it: the model is held and the flag
    is cleared. *)
Lemma startup_huge_accuracy :
  Api.MODEL (Api.load_model Examples.fs_sidecar_huge_accuracy Api.initial)
    = Some Examples.setosa_always /\
  Api.MODEL_LOADED (Api.load_model Examples.fs_sidecar_huge_accuracy Api.initial) = false.
Proof. split; vm_compute; reflexivity. Qed.

(** X3. When the artifact deserialises but the sidecar next to it exists
    and is unusable (not JSON, or JSON the startup log lines raise on), the
    model object is kept in memory, yet the flag is cleared: every
    prediction is answered 503 and the estimator is not invoked. *)
Theorem startup_unusable_sidecar fs p obj f now x xs :
  FS.first_existing fs Api.possible_paths = Some p ->
  fs !! p = Some (FPickle obj) ->
  fs !! (Path.dirname p +:+ "/metrics.json") = Some f ->
  (forall doc, f = FJson doc -> ~ sidecar_passes doc) ->
  Api.MODEL (Api.load_model fs Api.initial) = obj /\
  Api.MODEL_LOADED (Api.load_model fs Api.initial) = false /\
  Api.predict (Api.load_model fs Api.initial) now x
    = ([], Api.Error 503 "Model is not loaded. Please check server logs.") /\
  Api.predict_batch (Api.load_model fs Api.initial) now xs
    = ([], Api.Error 503 "Model is not loaded").
Proof.
  intros Hp Hf Hs Hbad.
  assert (Hst : Api.MODEL (Api.load_model fs Api.initial) = obj /\
                Api.MODEL_LOADED (Api.load_model fs Api.initial) = false).
  { unfold Api.load_model, FS.joblib_load, FS.exists_, FS.json_load.
    rewrite Hp, Hf, Hs. simpl.
    destruct f as [| df | obj' | doc | ]; simpl; auto.
    destruct (Api.log_metadata doc) as [e | u] eqn:Hlog; simpl; auto.
    exfalso. apply (Hbad doc eq_refl). apply log_metadata_passes. eauto. }
  destruct Hst as [HM HL]. split; [exact HM |]. split; [exact HL |].
  unfold Api.predict, Api.predict_batch, Api.not_loaded. rewrite HL. simpl.
  split; reflexivity.
Qed.

Lemma startup_unusable_sidecar_witness :
  FS.first_existing Examples.fs_sidecar_is_list Api.possible_paths
    = Some "models/model.pkl" /\
  Api.MODEL (Api.load_model Examples.fs_sidecar_is_list Api.initial)
    = Some Examples.setosa_always /\
  Api.MODEL_LOADED (Api.load_model Examples.fs_sidecar_is_list Api.initial) = false.
Proof.
  split; [reflexivity |].
  assert (Hbad : forall doc, FJson (JArr []) = FJson doc -> ~ sidecar_passes doc).
  { intros doc [= <-] (fields & Heq & _). discriminate. }
  destruct (startup_unusable_sidecar Examples.fs_sidecar_is_list "models/model.pkl"
              (Some Examples.setosa_always) (FJson (JArr []))
              "2024-01-01T00:00:00" Examples.iris_1 []
              eq_refl eq_refl eq_refl Hbad) as (HM & HL & _).
  split; [exact HM | exact HL].
Defined.

(** *** Single and batch prediction in the Loaded state *)

(** The single-prediction handler in the Loaded state, with the guard
    and the sequencing resolved. *)
Lemma predict_loaded st now x est :
  Api.MODEL st = Some est -> Api.MODEL_LOADED st = true ->
  Api.predict st now x =
    match est_predict est [Api.feature_row x] with
    | inl e =>
        ([Api.PredictCall [Api.feature_row x]],
         Api.Error 400 ("Prediction failed: " +:+ exn_msg e))
    | inr [] =>
        ([Api.PredictCall [Api.feature_row x]],
         Api.Error 400 "Prediction failed: index out of range")
    | inr (label :: _) =>
        ([Api.PredictCall [Api.feature_row x]; Api.PredictProbaCall [Api.feature_row x]],
         match est_predict_proba est [Api.feature_row x] with
         | inl e => Api.Error 400 ("Prediction failed: " +:+ exn_msg e)
         | inr [] => Api.Error 400 "Prediction failed: index out of range"
         | inr (dist :: _) =>
             match np_max dist with
             | inl e => Api.Error 400 ("Prediction failed: " +:+ exn_msg e)
             | inr conf =>
                 Api.Ok200 {| Api.prediction := label;
                              Api.confidence := conf;
                              Api.input_features := Api.echo x;
                              Api.model_version := "1.0.0";
                              Api.timestamp := now |}
             end
         end)
    end.
Proof.
  intros HM HL. unfold Api.predict.
  rewrite (not_loaded_false st est HM HL), HM.
  unfold Api.model_predict, Api.model_predict_proba, Api.tbind, Api.lift, Api.tret.
  destruct (est_predict est _) as [e | [| label labels]]; try reflexivity.
  simpl.
  destruct (est_predict_proba est _) as [e | [| dist dists]]; try reflexivity.
  simpl. destruct (np_max dist); reflexivity.
Qed.

(** X4. In the Loaded state a single prediction is answered 200 or 400,
    never 503 or 500. It invokes [predict] exactly once and first, and
    [predict_proba] at most once, namely exactly when [predict] returned at
    least one label; both get the one-row matrix of the four features in
    schema order. A raising [predict] is answered 400 with the exception's
    text. *)
Theorem predict_invocations st now x est :
  Api.MODEL st = Some est -> Api.MODEL_LOADED st = true ->
  let X := [[Api.sepal_length x; Api.sepal_width x; Api.petal_length x; Api.petal_width x]] in
  ((exists out, snd (Api.predict st now x) = Api.Ok200 out) \/
   (exists detail, snd (Api.predict st now x) = Api.Error 400 detail)) /\
  (fst (Api.predict st now x) = [Api.PredictCall X] \/
   fst (Api.predict st now x) = [Api.PredictCall X; Api.PredictProbaCall X]) /\
  (In (Api.PredictProbaCall X) (fst (Api.predict st now x)) <->
   exists label labels, est_predict est X = inr (label :: labels)) /\
  (forall e, est_predict est X = inl e ->
     Api.predict st now x
       = ([Api.PredictCall X], Api.Error 400 ("Prediction failed: " +:+ exn_msg e))).
Proof.
  intros HM HL X. rewrite (predict_loaded st now x est HM HL).
  change [Api.feature_row x] with X.
  destruct (est_predict est X) as [e | [| label labels]]; simpl.
  - split; [right; eauto |]. split; [now left |]. split.
    + split; [intros [H | []]; discriminate | intros (? & ? & H); discriminate].
    + intros e0 [= <-]. reflexivity.
  - split; [right; eauto |]. split; [now left |]. split.
    + split; [intros [H | []]; discriminate | intros (? & ? & H); discriminate].
    + intros e0 H; discriminate.
  - split.
    { destruct (est_predict_proba est X) as [e | [| dist dists]]; [right | right |];
        eauto.
      destruct (np_max dist); [right | left]; eauto. }
    split; [now right |]. split.
    + split; [eauto | intros _; right; now left].
    + intros e0 H; discriminate.
Qed.

Lemma predict_invocations_witness :
  Api.MODEL (Examples.loaded Examples.refuses_empty) = Some Examples.refuses_empty /\
  Api.MODEL_LOADED (Examples.loaded Examples.refuses_empty) = true /\
  In (Api.PredictProbaCall [[0; 0; 0; 0]]%Q)
     (fst (Api.predict (Examples.loaded Examples.refuses_empty)
             "2024-01-01T00:00:00" Examples.iris_2)).
Proof.
  split; [reflexivity |]. split; [reflexivity |].
  destruct (predict_invocations (Examples.loaded Examples.refuses_empty)
              "2024-01-01T00:00:00" Examples.iris_2 Examples.refuses_empty
              eq_refl eq_refl) as (_ & _ & Hiff & _).
  apply Hiff. eexists _, _. reflexivity.
Defined.

Lemma lookup_combine_inv {A B} (a : list A) (b : list B) :
  forall k x y, combine a b !! k = Some (x, y) -> a !! k = Some x /\ b !! k = Some y.
Proof.
  revert b. induction a as [| a0 a IH]; intros [| b0 b] k x y H;
    try (destruct k; discriminate).
  destruct k as [| k]; simpl in *.
  - injection H as <- <-. auto.
  - now apply IH.
Qed.

(** X5. In the Loaded state, for any estimator: a successful batch answer
    counts the inputs in [total_samples], holds as many results as the
    shorter of the two arrays the estimator returned, never more than there
    are inputs, and the result at position [i] carries index [i], the
    [i]-th label and the features of input [i]. So results stay aligned
    with the inputs; rows are missing from the end only if the estimator
    returned fewer rows than it was given, and surplus rows fail the
    call. *)
Theorem predict_batch_alignment st now xs est body :
  Api.MODEL st = Some est -> Api.MODEL_LOADED st = true ->
  snd (Api.predict_batch st now xs) = Api.Ok200 body ->
  exists labels dists,
    est_predict est (map Api.feature_row xs) = inr labels /\
    est_predict_proba est (map Api.feature_row xs) = inr dists /\
    Api.total_samples body = length xs /\
    length (Api.predictions body) = Nat.min (length labels) (length dists) /\
    (length (Api.predictions body) <= length xs)%nat /\
    forall i item, Api.predictions body !! i = Some item ->
      Api.index item = i /\
      labels !! i = Some (Api.item_prediction item) /\
      exists x, xs !! i = Some x /\ Api.item_input_features item = Api.echo x.
Proof.
  intros HM HL. rewrite (predict_batch_loaded st now xs est HM HL).
  destruct (est_predict est _) as [e | labels]; [discriminate |].
  destruct (est_predict_proba est _) as [e | dists]; [discriminate |].
  destruct (Api.batch_results _ _ _) as [e | results] eqn:Hres; [discriminate |].
  intros [= <-]. simpl.
  destruct (batch_results_ok _ _ _ _ Hres) as [Hlen Hitems].
  assert (Hitem : forall i item, results !! i = Some item ->
            Api.index item = i /\
            labels !! i = Some (Api.item_prediction item) /\
            exists x, xs !! i = Some x /\ Api.item_input_features item = Api.echo x).
  { intros i item Hi.
    assert (Hlt : (i < length (combine labels dists))%nat)
      by (rewrite <- Hlen; eapply lookup_lt_Some; eauto).
    destruct (lookup_lt_is_Some_2 _ _ Hlt) as [[label dist] Hz].
    destruct (Hitems i label dist Hz) as (conf & p & _ & Hp & Hit).
    simpl in Hp, Hit. rewrite Hi in Hit. injection Hit as ->. simpl.
    apply lookup_combine_inv in Hz as [Hl _]. eauto. }
  exists labels, dists.
  split; [reflexivity |]. split; [reflexivity |]. split; [reflexivity |].
  split; [| split; [| exact Hitem]].
  - rewrite Hlen. apply length_combine.
  - destruct (Nat.le_gt_cases (length results) (length xs)) as [| Hgt]; [assumption |].
    exfalso.
    destruct (lookup_lt_is_Some_2 results (length xs)) as [item Hi]; [lia |].
    destruct (Hitem _ _ Hi) as (_ & _ & x & Hx & _).
    apply lookup_lt_Some in Hx. lia.
Qed.

Lemma predict_batch_alignment_witness :
  exists body,
    snd (Api.predict_batch (Examples.loaded Examples.one_label_only)
           "2024-01-01T00:00:00" [Examples.iris_1; Examples.iris_2]) = Api.Ok200 body /\
    Api.total_samples body = 2%nat /\
    length (Api.predictions body) = 1%nat.
Proof.
  eexists. split; [reflexivity |].
  destruct (predict_batch_alignment (Examples.loaded Examples.one_label_only)
              "2024-01-01T00:00:00" [Examples.iris_1; Examples.iris_2]
              Examples.one_label_only _ eq_refl eq_refl eq_refl)
    as (labels & dists & _ & _ & Htotal & _).
  split; [exact Htotal | reflexivity].
Defined.

(** X6. With an estimator that answers row by row, a batch of one input is
    answered like the single prediction of that input: whenever the single
    prediction succeeds, the batch answer holds exactly one result, at
    index 0, with the same label, confidence and echoed features. *)
Theorem batch_of_one_agrees_with_predict st now x est t out :
  Api.MODEL st = Some est -> Api.MODEL_LOADED st = true -> row_wise est ->
  Api.predict st now x = (t, Api.Ok200 out) ->
  Api.predict_batch st now [x]
    = (t, Api.Ok200 {| Api.total_samples := 1;
                       Api.predictions :=
                         [ {| Api.index := 0;
                              Api.item_prediction := Api.prediction out;
                              Api.item_confidence := Api.confidence out;
                              Api.item_input_features := Api.input_features out |} ];
                       Api.batch_timestamp := now |}).
Proof.
  intros HM HL Hrw. rewrite (predict_loaded st now x est HM HL).
  unfold Api.predict_batch. rewrite (not_loaded_false st est HM HL), HM.
  unfold Api.model_predict, Api.model_predict_proba, Api.tbind, Api.lift, Api.tret.
  destruct (Hrw [Api.feature_row x]) as [Hlab Hdist]. simpl map.
  destruct (est_predict est [Api.feature_row x]) as [e | labels]; [discriminate |].
  specialize (Hlab labels eq_refl).
  destruct labels as [| label [| l2 labels]]; try discriminate.
  destruct (est_predict_proba est [Api.feature_row x]) as [e | dists]; [discriminate |].
  specialize (Hdist dists eq_refl).
  destruct dists as [| dist [| d2 dists]]; try discriminate.
  simpl. destruct (np_max dist) as [e | conf]; [discriminate |].
  intros [= <- <-]. reflexivity.
Qed.

Lemma batch_of_one_agrees_with_predict_witness :
  row_wise Examples.setosa_always /\
  snd (Api.predict_batch (Examples.loaded Examples.setosa_always)
         "2024-01-01T00:00:00" [Examples.iris_1])
    = Api.Ok200 {| Api.total_samples := 1;
                   Api.predictions :=
                     [ {| Api.index := 0;
                          Api.item_prediction := "setosa";
                          Api.item_confidence := 8 # 10;
                          Api.item_input_features := Api.echo Examples.iris_1 |} ];
                   Api.batch_timestamp := "2024-01-01T00:00:00" |}.
Proof.
  split; [exact setosa_always_row_wise |].
  rewrite (batch_of_one_agrees_with_predict
             (Examples.loaded Examples.setosa_always) "2024-01-01T00:00:00"
             Examples.iris_1 Examples.setosa_always _ _
             eq_refl eq_refl setosa_always_row_wise eq_refl).
  reflexivity.
Defined.

(* ===================================================================== *)
(** ** Further properties of the artifact store                           *)
(* ===================================================================== *)

(** *** Where the sidecar lives *)

Lemma chars_append a b : Path.chars (a +:+ b) = Path.chars a ++ Path.chars b.
Proof.
  unfold Path.chars. induction a as [| c a IH]; simpl; [reflexivity |].
  now rewrite IH.
Qed.

Lemma head_to_last_slash_none l :
  existsb (fun c => Ascii.eqb c Path.slash) l = false -> Path.head_to_last_slash l = [].
Proof.
  induction l as [| c l IH]; simpl; [reflexivity |].
  intros H. apply orb_false_elim in H as [Hc Hl].
  rewrite (IH Hl), Hc. reflexivity.
Qed.

Lemma head_to_last_slash_cut l1 l2 :
  existsb (fun c => Ascii.eqb c Path.slash) l2 = false ->
  Path.head_to_last_slash (l1 ++ Path.slash :: l2) = l1 ++ [Path.slash].
Proof.
  intros H. induction l1 as [| c l1 IH]; simpl.
  - rewrite (head_to_last_slash_none l2 H). reflexivity.
  - rewrite IH. destruct l1; reflexivity.
Qed.

Lemma rstrip_slash_snoc l c :
  Path.rstrip_slash (l ++ [c])
    = if Ascii.eqb c Path.slash then Path.rstrip_slash l else l ++ [c].
Proof.
  induction l as [| a l IH]; simpl.
  - destruct (Ascii.eqb c Path.slash); reflexivity.
  - rewrite IH. destruct (Ascii.eqb c Path.slash); [reflexivity |].
    destruct l; reflexivity.
Qed.

(** [dirname] undoes [join] on a directory without a trailing slash and a
    file name without a slash. *)
Lemma dirname_join d name :
  d <> "" -> Path.ends_with_slash d = false -> has_slash name = false ->
  Path.join d name = d +:+ "/" +:+ name /\ Path.dirname (Path.join d name) = d.
Proof.
  intros Hd Hend Hname.
  assert (Hstart : Path.starts_with_slash name = false).
  { unfold has_slash, Path.chars in Hname. destruct name as [| c name]; [reflexivity |].
    simpl in *. now apply orb_false_elim in Hname as [Hc _]. }
  assert (Hjoin : Path.join d name = d +:+ "/" +:+ name).
  { unfold Path.join. rewrite Hstart, Hend.
    destruct (String.eqb_spec d ""); [contradiction | reflexivity]. }
  split; [exact Hjoin |]. rewrite Hjoin.
  unfold Path.dirname. rewrite chars_append.
  change (Path.chars ("/" +:+ name)) with (Path.slash :: Path.chars name).
  rewrite head_to_last_slash_cut by exact Hname.
  unfold Path.ends_with_slash in Hend.
  assert (Hchars : Path.chars d = rev (rev (Path.chars d)))
    by (symmetry; apply rev_involutive).
  destruct (rev (Path.chars d)) as [| c r]; simpl in Hchars.
  - exfalso. apply Hd. unfold Path.chars in Hchars.
    rewrite <- (string_of_list_ascii_of_string d), Hchars. reflexivity.
  - rewrite Hchars, rstrip_slash_snoc.
    change (Ascii.eqb Path.slash Path.slash) with true. cbv iota.
    rewrite rstrip_slash_snoc, Hend.
    destruct (rev r ++ [c]) eqn:E; [destruct (rev r); discriminate |].
    rewrite <- Hchars. apply string_of_list_ascii_of_string.
Qed.

(** X7. The server looks for the sidecar exactly where a save into the
    artifact's directory puts it: for a directory name that is not empty
    and does not end in a slash, and an artifact file name without a slash,
    [os.path.dirname(model_path) + '/metrics.json'] on the joined artifact
    path is [os.path.join(directory, 'metrics.json')]. *)
Theorem sidecar_path_agrees d name :
  d <> "" -> Path.ends_with_slash d = false -> has_slash name = false ->
  Path.dirname (Path.join d name) +:+ "/metrics.json" = Path.join d "metrics.json".
Proof.
  intros Hd Hend Hname.
  destruct (dirname_join d name Hd Hend Hname) as [_ ->].
  destruct (dirname_join d "metrics.json" Hd Hend eq_refl) as [-> _].
  reflexivity.
Qed.

Lemma sidecar_path_agrees_witness :
  Dag.model_dir <> "" /\
  Path.ends_with_slash Dag.model_dir = false /\
  has_slash "model.pkl" = false /\
  Path.dirname (Path.join Dag.model_dir "model.pkl") +:+ "/metrics.json"
    = "/opt/airflow/models/metrics.json".
Proof.
  assert (Hd : Dag.model_dir <> "") by discriminate.
  split; [exact Hd |]. split; [reflexivity |]. split; [reflexivity |].
  rewrite (sidecar_path_agrees Dag.model_dir "model.pkl" Hd eq_refl eq_refl).
  reflexivity.
Defined.

(** *** From the training code's sidecar to the model-info answer *)

Lemma str_items_names names : Api.str_items (map JStr names) = inr names.
Proof.
  induction names as [| n names IH]; simpl; [reflexivity |]. rewrite IH. reflexivity.
Qed.

Lemma str_items_labels labels :
  string_labels labels ->
  Api.str_items (map Pandas.json_of_cell labels) = inr (map label_text labels).
Proof.
  induction 1 as [| c labels [s ->] _ IH]; simpl; [reflexivity |].
  rewrite IH. reflexivity.
Qed.

(** X8. When the loaded metadata is the metrics dict the training code
    writes (the stand-alone script's, or the pipeline's with its extra
    importance mapping) and the class labels are strings, the model-info
    answer repeats the training run: the feature columns in their order,
    the distinct labels in order of first appearance, and the training
    accuracy. *)
Theorem model_info_reports_training st now est a1 a2 X y X_train X_test importance :
  Api.MODEL st = Some est -> Api.MODEL_LOADED st = true ->
  string_labels (Pandas.unique y) ->
  Api.MODEL_METADATA st = Train.metrics a1 a2 X y X_train X_test \/
  Api.MODEL_METADATA st = Dag.metrics_of a1 a2 X y X_train X_test importance ->
  Api.get_model_info st now
    = Api.Ok200 {| Api.model_name := "Random Forest Classifier";
                   Api.model_type := "sklearn.ensemble.RandomForestClassifier";
                   Api.features := columns X;
                   Api.classes := map label_text (Pandas.unique y);
                   Api.accuracy := a1;
                   Api.info_timestamp := now |}.
Proof.
  intros HM HL Hlabels Hmeta. unfold Api.get_model_info.
  rewrite (not_loaded_false st est HM HL).
  destruct Hmeta as [-> | ->]; simpl;
    rewrite str_items_names; simpl;
    rewrite (str_items_labels _ Hlabels); reflexivity.
Qed.

Lemma model_info_reports_training_witness :
  string_labels (Pandas.unique [Some (VStr "setosa"); Some (VStr "virginica")]) /\
  Api.get_model_info
    (Examples.loaded_with Examples.setosa_always
       (Train.metrics (9 # 10) (8 # 10) Examples.df_header_only
          [Some (VStr "setosa"); Some (VStr "virginica")] [] []))
    "2024-01-01T00:00:00"
    = Api.Ok200 {| Api.model_name := "Random Forest Classifier";
                   Api.model_type := "sklearn.ensemble.RandomForestClassifier";
                   Api.features := Examples.iris_columns;
                   Api.classes := ["setosa"; "virginica"];
                   Api.accuracy := 9 # 10;
                   Api.info_timestamp := "2024-01-01T00:00:00" |}.
Proof.
  assert (Hl : string_labels
                 (Pandas.unique [Some (VStr "setosa"); Some (VStr "virginica")])).
  { repeat constructor; eexists; reflexivity. }
  split; [exact Hl |].
  rewrite (model_info_reports_training
             (Examples.loaded_with Examples.setosa_always
                (Train.metrics (9 # 10) (8 # 10) Examples.df_header_only
                   [Some (VStr "setosa"); Some (VStr "virginica")] [] []))
             "2024-01-01T00:00:00" Examples.setosa_always
             (9 # 10) (8 # 10) Examples.df_header_only
             [Some (VStr "setosa"); Some (VStr "virginica")] [] [] []
             eq_refl eq_refl Hl (or_introl eq_refl)).
  reflexivity.
Defined.

(** *** The stand-alone script, then the server *)

(** Startup on a store whose first candidate holds the artifact, with a
    sidecar the log lines get through. *)
Lemma load_model_with_sidecar fs obj doc :
  fs !! "models/model.pkl" = Some (FPickle obj) ->
  fs !! "models/metrics.json" = Some (FJson doc) ->
  sidecar_passes doc ->
  Api.load_model fs Api.initial
    = {| Api.MODEL := obj; Api.MODEL_METADATA := doc; Api.MODEL_LOADED := true |}.
Proof.
  intros Hart Hmet Hdoc. apply log_metadata_passes in Hdoc as [u Hlog].
  unfold Api.load_model, FS.first_existing, Api.possible_paths, FS.exists_,
    FS.joblib_load, FS.json_load.
  simpl find. rewrite Hart. cbv beta iota zeta. rewrite Hart.
  change (Path.dirname "models/model.pkl" +:+ "/metrics.json") with "models/metrics.json".
  rewrite Hmet. cbv beta iota. rewrite Hlog. reflexivity.
Qed.

(** X9. After the stand-alone script has run to its end, a server started
    in the same working directory finds the script's artifact as its first
    candidate, loads the model the trainer returned together with the
    metrics the script saved, and is Loaded; the importance table the
    script printed is in descending order. *)
Theorem script_then_startup rank fit ambient budget fs m table fs' :
  Proc.run (Train.main rank fit ambient) budget fs = Proc.Returned (m, table) fs' ->
  exists model Xn_train y_train,
    fit 42%Z Xn_train y_train = inr model /\
    FS.first_existing fs' Api.possible_paths = Some "models/model.pkl" /\
    Api.load_model fs' Api.initial
      = {| Api.MODEL := Some model; Api.MODEL_METADATA := m; Api.MODEL_LOADED := true |} /\
    Api.not_loaded (Api.load_model fs' Api.initial) = false /\
    Sorted (fun a b : string * Q => (snd b <= snd a)%Q) table.
Proof.
  intros Hrun.
  destruct (train_main_returned _ _ _ _ _ _ _ _ Hrun)
    as (X & y & X_train & X_test & y_train & Xn_train & model & a1 & a2
        & Hfit & _ & Hm & Ha1 & _ & Htable & Hart & Hmet).
  exists model, Xn_train, y_train. split; [exact Hfit |]. split.
  { unfold FS.first_existing, Api.possible_paths, FS.exists_. simpl find.
    rewrite Hart. reflexivity. }
  assert (Hload : Api.load_model fs' Api.initial
                  = {| Api.MODEL := Some model; Api.MODEL_METADATA := m;
                       Api.MODEL_LOADED := true |}).
  { apply load_model_with_sidecar; [exact Hart | exact Hmet |].
    subst m. eexists. split; [reflexivity |]. exact (unit_no_overflow a1 Ha1). }
  split; [exact Hload |]. split; [rewrite Hload; reflexivity |].
  unfold Train.feature_importance in Htable.
  destruct (Nat.eqb _ _); [| discriminate]. injection Htable as <-.
  apply sorted_desc_sorted.
Qed.

Lemma example_script_run :
  exists r,
    Proc.returned (Proc.run (Train.main Examples.rank_in_place Examples.fit_setosa 0)
                            5 Examples.fs_script) = Some r.
Proof. eexists. vm_compute. reflexivity. Qed.

Lemma script_then_startup_witness :
  exists m table fs',
    Proc.run (Train.main Examples.rank_in_place Examples.fit_setosa 0)
             5 Examples.fs_script = Proc.Returned (m, table) fs' /\
    Api.MODEL_LOADED (Api.load_model fs' Api.initial) = true /\
    Api.MODEL_METADATA (Api.load_model fs' Api.initial) = m.
Proof.
  destruct example_script_run as [[m table] Hr].
  destruct (Proc.run (Train.main Examples.rank_in_place Examples.fit_setosa 0)
                     5 Examples.fs_script) as [[m' table'] fs' | e fs' | fs'] eqn:Hrun;
    try discriminate.
  injection Hr as -> ->.
  exists m, table, fs'. split; [reflexivity |].
  destruct (script_then_startup _ _ _ _ _ _ _ _ Hrun)
    as (model & Xn & ytr & _ & _ & Hload & _).
  rewrite Hload. split; reflexivity.
Defined.

(** *** The Save stage and an unreadable relay *)



(* ===================================================================== *)
(** ** Further properties of the pipeline stages                          *)
(* ===================================================================== *)

(** *** The relay between the stages *)

(** What a successful body of the Train stage has computed, in full. *)
Lemma train_body_metrics rank fit read_json ambient xcom metrics model logged returned :
  Dag.train_body rank fit read_json ambient xcom = inr (metrics, model, logged, returned) ->
  exists df X y X_train X_test y_train y_test Xn_train a1 a2,
    Dag.pd_read_json read_json (Dag.xcom_pull xcom "load_data" "dataset") = inr df /\
    Dag.split_stage rank ambient df = inr (X, y, (X_train, X_test, y_train, y_test)) /\
    fit 42%Z Xn_train y_train = inr model /\
    metrics = Dag.metrics_of a1 a2 X y X_train X_test (Dag.feature_importance_of X model) /\
    returned = JObj [ ("status", JStr "success");
                      ("train_accuracy", JNum a1);
                      ("test_accuracy", JNum a2) ].
Proof.
  unfold Dag.train_body.
  destruct (Dag.pd_read_json _ _) as [e | df] eqn:Hdf; [discriminate |]. simpl.
  destruct (Dag.split_stage rank ambient df)
    as [e | [[X y] [[[X_train X_test] y_train] y_test]]] eqn:Hs; [discriminate |]. simpl.
  destruct (Pandas.numeric X_train) as [e | Xn_train]; [discriminate |]. simpl.
  destruct (fit 42%Z Xn_train y_train) as [e | model0] eqn:Hfit; [discriminate |]. simpl.
  destruct (est_predict model0 Xn_train) as [e | y_pred_train]; [discriminate |]. simpl.
  destruct (Pandas.numeric X_test) as [e | Xn_test]; [discriminate |]. simpl.
  destruct (est_predict model0 Xn_test) as [e | y_pred_test]; [discriminate |]. simpl.
  destruct (Sklearn.accuracy_score y_train y_pred_train) as [e | a1]; [discriminate |].
  simpl.
  destruct (Sklearn.accuracy_score y_test y_pred_test) as [e | a2]; [discriminate |].
  simpl. intros [= <- <- <- <-].
  exists df, X, y, X_train, X_test, y_train, y_test, Xn_train, a1, a2.
  repeat split; auto.
Qed.

(** X14. The Train stage touches only its own two relay keys. A failure
    before the pushes leaves the relay as it was; a failed stage never
    relays a model, and relays metrics only when the failure is the
    serialisation of the fitted model; a successful stage has relayed both
    the metrics and the serialised model. *)
Theorem train_model_relay rank fit read_json joblib_dumps ambient xcom :
  (forall key, key <> ("train_model", "metrics") -> key <> ("train_model", "model") ->
     fst (fst (Dag.train_model rank fit read_json joblib_dumps ambient xcom)) !! key
     = xcom !! key) /\
  (forall e, Dag.train_body rank fit read_json ambient xcom = inl e ->
     Dag.train_model rank fit read_json joblib_dumps ambient xcom = (xcom, [], inl e)) /\
  (forall e, snd (Dag.train_model rank fit read_json joblib_dumps ambient xcom) = inl e ->
     Dag.xcom_pull (fst (fst (Dag.train_model rank fit read_json joblib_dumps ambient xcom)))
                   "train_model" "model"
       = Dag.xcom_pull xcom "train_model" "model" /\
     (Dag.xcom_pull (fst (fst (Dag.train_model rank fit read_json joblib_dumps ambient xcom)))
                    "train_model" "metrics"
        = Dag.xcom_pull xcom "train_model" "metrics" \/
      exists metrics model logged returned,
        Dag.train_body rank fit read_json ambient xcom
          = inr (metrics, model, logged, returned) /\
        joblib_dumps model = inl e)) /\
  (forall returned,
     snd (Dag.train_model rank fit read_json joblib_dumps ambient xcom) = inr returned ->
     exists metrics bytes,
       Dag.xcom_pull (fst (fst (Dag.train_model rank fit read_json joblib_dumps ambient xcom)))
                     "train_model" "metrics" = Some (Dag.XJson metrics) /\
       Dag.xcom_pull (fst (fst (Dag.train_model rank fit read_json joblib_dumps ambient xcom)))
                     "train_model" "model" = Some (Dag.XBytes bytes)).
Proof.
  unfold Dag.train_model.
  destruct (Dag.train_body rank fit read_json ambient xcom)
    as [e0 | [[[metrics model] lines] ret]] eqn:Hbody.
  { simpl. split; [auto |]. split; [intros e [= <-]; reflexivity |].
    split; [auto | discriminate]. }
  destruct (json_encode metrics) as [e0 | text] eqn:Henc.
  { simpl. split; [auto |]. split; [discriminate |]. split; [| discriminate].
    intros e _. split; [reflexivity | left; reflexivity]. }
  destruct (joblib_dumps model) as [e0 | bytes] eqn:Hd; simpl;
    unfold Dag.xcom_pull, Dag.xcom_push.
  - split; [intros key H1 _; now apply lookup_insert_ne |].
    split; [discriminate |]. split; [| discriminate].
    intros e [= <-]. split; [apply lookup_insert_ne; discriminate |].
    right. exists metrics, model, lines, ret. auto.
  - split; [intros key H1 H2; rewrite !lookup_insert_ne by congruence; reflexivity |].
    split; [discriminate |]. split; [discriminate |].
    intros returned _. exists text, bytes. split.
    + rewrite lookup_insert_ne by discriminate. apply lookup_insert_eq.
    + apply lookup_insert_eq.
Qed.

Lemma drop_columns name df X :
  Pandas.drop name df = inr X ->
  columns X = List.filter (fun c => negb (String.eqb name c)) (columns df).
Proof.
  unfold Pandas.drop. destruct (Pandas.has_column name df); [| discriminate].
  intros [= <-]. reflexivity.
Qed.

(** X15. In the metrics the Train stage relays (they are in the relay
    once encoded, so also when the serialisation of the model then
    raises), the two sample counts are the sizes of the split and add up to
    the rows of the table the stage read, and [features_used] lists that
    table's columns in their order without the target column; the
    accuracies in the dict the stage would return are the ones in the
    metrics. *)
Theorem train_metrics_consistent rank fit read_json joblib_dumps ambient xcom
    metrics model logged returned :
  Dag.train_body rank fit read_json ambient xcom = inr (metrics, model, logged, returned) ->
  encodable metrics = true ->
  exists df n_train n_test,
    Dag.pd_read_json read_json (Dag.xcom_pull xcom "load_data" "dataset") = inr df /\
    Dag.xcom_pull (fst (fst (Dag.train_model rank fit read_json joblib_dumps ambient xcom)))
                  "train_model" "metrics" = Some (Dag.XJson metrics) /\
    Dag.py_index metrics "training_samples" = inr (Dag.jnat n_train) /\
    Dag.py_index metrics "test_samples" = inr (Dag.jnat n_test) /\
    (n_train + n_test = Pandas.nrows df)%nat /\
    n_test = Sklearn.n_test_of (2 # 10) (Pandas.nrows df) /\
    Dag.py_index metrics "features_used"
      = inr (JArr (map JStr (List.filter (fun c => negb (String.eqb "species" c))
                                         (columns df)))) /\
    ~ In "species" (List.filter (fun c => negb (String.eqb "species" c)) (columns df)) /\
    Dag.py_index returned "train_accuracy" = Dag.py_index metrics "train_accuracy" /\
    Dag.py_index returned "test_accuracy" = Dag.py_index metrics "test_accuracy".
Proof.
  intros Hbody Henc.
  destruct (train_model_after_body rank fit read_json joblib_dumps ambient xcom
              _ _ _ _ Hbody) as (_ & Hrelay & _).
  destruct (Hrelay Henc) as [Hpull _].
  destruct (train_body_metrics _ _ _ _ _ _ _ _ _ Hbody)
    as (df & X & y & X_train & X_test & y_train & y_test & Xn & a1 & a2
        & Hdf & Hsplit & _ & Hm & ->).
  unfold Dag.split_stage in Hsplit.
  destruct (Pandas.drop "species" df) as [e | X0] eqn:HX; [discriminate |].
  destruct (Pandas.column "species" df) as [e | y0]; [discriminate |]. simpl in Hsplit.
  destruct (Sklearn.train_test_split _ _ _ _ _ _ _) as [e | parts] eqn:Hs;
    [discriminate |].
  simpl in Hsplit. injection Hsplit as -> -> ->.
  apply train_test_split_parts in Hs. cbv zeta in Hs.
  destruct Hs as (_ & Hk & H1 & H2 & _).
  rewrite (drop_rows _ _ _ HX) in *.
  exists df, (length X_train), (length X_test).
  split; [exact Hdf |]. split; [exact Hpull |]. subst metrics.
  split; [reflexivity |]. split; [reflexivity |].
  split; [lia |]. split; [exact H1 |].
  split; [simpl; rewrite (drop_columns _ _ _ HX); reflexivity |].
  split; [| split; reflexivity].
  intros Hin. apply filter_In in Hin as [_ Hne].
  rewrite String.eqb_refl in Hne. discriminate.
Qed.

Lemma train_metrics_consistent_witness :
  exists metrics model logged returned,
    Dag.train_body Examples.rank_in_place Examples.fit_setosa Examples.read_unchanged 0
                   Examples.xcom_loaded = inr (metrics, model, logged, returned) /\
    encodable metrics = true /\
    Dag.xcom_pull
      (fst (fst (Dag.task_train_model Examples.rank_in_place Examples.fit_setosa
                   Examples.read_unchanged 0 Examples.xcom_loaded)))
      "train_model" "metrics" = Some (Dag.XJson metrics) /\
    Dag.py_index metrics "training_samples" = inr (Dag.jnat 8) /\
    Dag.py_index metrics "test_samples" = inr (Dag.jnat 2).
Proof.
  destruct example_train_body as (metrics & model & logged & returned & Hbody & Henc).
  exists metrics, model, logged, returned.
  split; [exact Hbody |]. split; [exact Henc |].
  destruct (train_metrics_consistent _ _ _ Dag.joblib_dumps_absent _ _ _ _ _ _ Hbody Henc)
    as (df & n_train & n_test & Hdf & Hpull & Htr & Hte & Hsum & Hk & _).
  vm_compute in Hdf. injection Hdf as <-.
  vm_compute in Hk. subst n_test.
  assert (Hten : (n_train + 2 = 10)%nat) by exact Hsum.
  assert (n_train = 8%nat) by lia. subst n_train.
  split; [exact Hpull |]. split; [exact Htr | exact Hte].
Defined.

(** X20. The Train stage as the scheduler runs it never succeeds and never
    relays a model, whatever the dataset: when its body and the encoding
    of the metrics succeed, the metrics are relayed, the importance lines
    are logged, and the stage ends in the AttributeError of the missing
    [joblib.dumps]. *)
Theorem task_train_model_never_returns rank fit read_json ambient xcom :
  (exists e, snd (Dag.task_train_model rank fit read_json ambient xcom) = inl e) /\
  Dag.xcom_pull (fst (fst (Dag.task_train_model rank fit read_json ambient xcom)))
                "train_model" "model"
    = Dag.xcom_pull xcom "train_model" "model" /\
  (forall metrics model logged returned,
     Dag.train_body rank fit read_json ambient xcom
       = inr (metrics, model, logged, returned) ->
     encodable metrics = true ->
     Dag.task_train_model rank fit read_json ambient xcom
       = (Dag.xcom_push "train_model" "metrics" (Dag.XJson metrics) xcom, logged,
          raise "AttributeError" "module 'joblib' has no attribute 'dumps'")).
Proof.
  unfold Dag.task_train_model, Dag.train_model, Dag.joblib_dumps_absent, json_encode.
  destruct (Dag.train_body rank fit read_json ambient xcom)
    as [e0 | [[[metrics model] lines] ret]].
  { simpl. split; [eauto |]. split; [reflexivity | discriminate]. }
  destruct (encodable metrics) eqn:Henc; simpl.
  - split; [eauto |]. split.
    + unfold Dag.xcom_pull, Dag.xcom_push. apply lookup_insert_ne. discriminate.
    + intros ? ? ? ? [= <- <- <- <-] _. reflexivity.
  - split; [eauto |]. split; [reflexivity |].
    intros ? ? ? ? [= <- <- <- <-] H. congruence.
Qed.

(** On ten records whose species column holds integers, the encoder
    refuses the metrics: the stage logs the four importance lines, relays
    nothing and ends in a TypeError. *)
Lemma task_train_model_integer_labels :
  Dag.xcom_pull
    (fst (fst (Dag.task_train_model Examples.rank_in_place Examples.fit_setosa
                 Examples.read_unchanged 0 Examples.xcom_loaded_coded)))
    "train_model" "metrics" = None /\
  length (snd (fst (Dag.task_train_model Examples.rank_in_place Examples.fit_setosa
                      Examples.read_unchanged 0 Examples.xcom_loaded_coded))) = 4%nat /\
  snd (Dag.task_train_model Examples.rank_in_place Examples.fit_setosa
         Examples.read_unchanged 0 Examples.xcom_loaded_coded)
    = raise "TypeError" "Object of type int64 is not JSON serializable".
Proof. repeat split; vm_compute; reflexivity. Qed.

(** *** The Report stage *)

(** X17. When any of the three earlier stages has left no result, the
    Report stage raises. *)
Theorem log_results_needs_all_three returns now task :
  In task ["load_data"; "train_model"; "save_model"] ->
  returns !! task = None ->
  exists e, Dag.log_results returns now = inl e.
Proof.
  intros Hin Hnone. unfold Dag.log_results, Dag.pull_return.
  destruct Hin as [<- | [<- | [<- | []]]]; rewrite Hnone; simpl.
  - eauto.
  - destruct (Dag.py_index _ "status"); simpl; eauto.
    destruct (Dag.py_index _ "shape"); simpl; eauto.
  - destruct (Dag.py_index _ "status"); simpl; eauto.
    destruct (Dag.py_index _ "shape"); simpl; eauto.
    destruct (Dag.py_index _ "status"); simpl; eauto.
    destruct (Dag.py_index _ "train_accuracy") as [| a]; simpl; eauto.
    destruct (format_4f a); simpl; eauto.
    destruct (Dag.py_index _ "test_accuracy") as [| b]; simpl; eauto.
    destruct (format_4f b); simpl; eauto.
Qed.

Lemma log_results_needs_all_three_witness :
  In "save_model" ["load_data"; "train_model"; "save_model"] /\
  Examples.returns_load_only !! "save_model" = None /\
  exists e, Dag.log_results Examples.returns_load_only "2024-01-01T00:00:00" = inl e.
Proof.
  assert (Hin : In "save_model" ["load_data"; "train_model"; "save_model"])
    by (right; right; left; reflexivity).
  assert (Hnone : Examples.returns_load_only !! "save_model" = None) by reflexivity.
  split; [exact Hin |]. split; [exact Hnone |].
  exact (log_results_needs_all_three Examples.returns_load_only
           "2024-01-01T00:00:00" "save_model" Hin Hnone).
Defined.

(** *** The script ending inside the write of the sidecar *)

(** Where a run of the script can end, seen from the sidecar path: before
    the sidecar is opened (its path holds what it held), after it is
    opened and before its content is written (the artifact is complete and
    the sidecar unreadable), or at the very end. *)
Lemma train_main_outcome rank fit ambient budget fs :
  (Proc.returned (Proc.run (Train.main rank fit ambient) budget fs) = None /\
   Proc.final_fs (Proc.run (Train.main rank fit ambient) budget fs)
     !! "models/metrics.json" = fs !! "models/metrics.json") \/
  (exists model,
     Proc.returned (Proc.run (Train.main rank fit ambient) budget fs) = None /\
     Proc.final_fs (Proc.run (Train.main rank fit ambient) budget fs)
       !! "models/model.pkl" = Some (FPickle (Some model)) /\
     Proc.final_fs (Proc.run (Train.main rank fit ambient) budget fs)
       !! "models/metrics.json" = Some FOther) \/
  (exists m table,
     Proc.returned (Proc.run (Train.main rank fit ambient) budget fs) = Some (m, table) /\
     Proc.final_fs (Proc.run (Train.main rank fit ambient) budget fs)
       !! "models/metrics.json" = Some (FJson m)).
Proof.
  unfold Train.main, Proc.run, Proc.bind, Proc.effect, Proc.read, Proc.pure, Proc.ret,
    FS.open_w.
  destruct budget as [| b1]; [left; split; reflexivity |].
  destruct (FS.makedirs fs "models") as [e | fs1] eqn:Hmk; [left; split; reflexivity |].
  assert (H1 : fs1 !! "models/metrics.json" = fs !! "models/metrics.json")
    by (eapply makedirs_lookup; [exact Hmk | discriminate]).
  destruct (FS.read_csv fs1 "data/dataset.csv") as [e | df];
    [left; split; [reflexivity | exact H1] |].
  destruct (Train.split rank ambient df)
    as [e | [[X y] [[[X_train X_test] y_train] y_test]]];
    [left; split; [reflexivity | exact H1] |].
  destruct (Pandas.numeric X_train) as [e | Xn_train];
    [left; split; [reflexivity | exact H1] |].
  destruct (fit 42%Z Xn_train y_train) as [e | model];
    [left; split; [reflexivity | exact H1] |].
  destruct (Pandas.numeric X_test) as [e | Xn_test];
    [left; split; [reflexivity | exact H1] |].
  destruct (est_predict model Xn_test) as [e | y_pred];
    [left; split; [reflexivity | exact H1] |].
  destruct (est_predict model Xn_train) as [e | y_pred_train];
    [left; split; [reflexivity | exact H1] |].
  destruct (Sklearn.accuracy_score y_train y_pred_train) as [e | a1];
    [left; split; [reflexivity | exact H1] |].
  destruct (Sklearn.accuracy_score y_test y_pred) as [e | a2];
    [left; split; [reflexivity | exact H1] |].
  destruct (Train.feature_importance X model) as [e | tbl];
    [left; split; [reflexivity | exact H1] |].
  destruct b1 as [| b2]; [left; split; [reflexivity | exact H1] |].
  destruct (FS.write fs1 "models/model.pkl" FOther) as [e | fs2] eqn:Ho1;
    [left; split; [reflexivity | exact H1] |].
  assert (H2 : fs2 !! "models/metrics.json" = fs !! "models/metrics.json").
  { rewrite (write_lookup _ _ _ _ "models/metrics.json" Ho1).
    destruct (decide _); [discriminate | exact H1]. }
  destruct b2 as [| b3]; [left; split; [reflexivity | exact H2] |].
  destruct (FS.write fs2 "models/model.pkl" _) as [e | fs3] eqn:Hw1;
    [left; split; [reflexivity | exact H2] |].
  assert (H3 : fs3 !! "models/metrics.json" = fs !! "models/metrics.json").
  { rewrite (write_lookup _ _ _ _ "models/metrics.json" Hw1).
    destruct (decide _); [discriminate | exact H2]. }
  assert (Hart3 : fs3 !! "models/model.pkl" = Some (FPickle (Some model))).
  { rewrite (write_lookup _ _ _ _ "models/model.pkl" Hw1).
    destruct (decide _); [reflexivity | contradiction]. }
  destruct b3 as [| b4]; [left; split; [reflexivity | exact H3] |].
  destruct (FS.write fs3 "models/metrics.json" FOther) as [e | fs4] eqn:Ho2;
    [left; split; [reflexivity | exact H3] |].
  assert (Hart4 : fs4 !! "models/model.pkl" = Some (FPickle (Some model))).
  { rewrite (write_lookup _ _ _ _ "models/model.pkl" Ho2).
    destruct (decide _); [discriminate | exact Hart3]. }
  assert (Hmet4 : fs4 !! "models/metrics.json" = Some FOther).
  { rewrite (write_lookup _ _ _ _ "models/metrics.json" Ho2).
    destruct (decide _); [reflexivity | contradiction]. }
  destruct (json_encode _) as [e | text] eqn:Henc;
    [right; left; exists model; auto |].
  destruct b4 as [| b5]; [right; left; exists model; auto |].
  destruct (FS.write fs4 "models/metrics.json" _) as [e | fs5] eqn:Hw2;
    [right; left; exists model; auto |].
  right; right. eexists _, _. split; [reflexivity |]. simpl.
  rewrite (write_lookup _ _ _ _ "models/metrics.json" Hw2).
  destruct (decide _); [| contradiction].
  unfold json_encode in Henc. destruct (encodable _); [| discriminate].
  injection Henc as <-. reflexivity.
Qed.

(** Startup on a store whose first candidate holds the artifact, next to
    a sidecar that does not parse. *)
Lemma load_model_unreadable_sidecar fs obj :
  fs !! "models/model.pkl" = Some (FPickle obj) ->
  fs !! "models/metrics.json" = Some FOther ->
  Api.load_model fs Api.initial
    = {| Api.MODEL := obj; Api.MODEL_METADATA := JNull; Api.MODEL_LOADED := false |}.
Proof.
  intros Hart Hmet.
  unfold Api.load_model, FS.first_existing, Api.possible_paths, FS.exists_,
    FS.joblib_load, FS.json_load.
  simpl find. rewrite Hart. cbv beta iota zeta. rewrite Hart.
  change (Path.dirname "models/model.pkl" +:+ "/metrics.json") with "models/metrics.json".
  rewrite Hmet. reflexivity.
Qed.

(** X21. The script writes the sidecar in two steps, opening it and then
    filling it. When a run ends with the sidecar opened and not filled
    (the process is stopped there, or the encoder refuses the metrics, as
    it does for the labels of an integer column), the artifact has been
    written in full and the run has not returned; a server started in that
    directory keeps the new model in memory and clears its flag, so every
    prediction is answered 503. *)
Theorem script_ends_inside_sidecar_write rank fit ambient budget fs now x xs :
  fs !! "models/metrics.json" <> Some FOther ->
  Proc.final_fs (Proc.run (Train.main rank fit ambient) budget fs)
    !! "models/metrics.json" = Some FOther ->
  exists model,
    Proc.returned (Proc.run (Train.main rank fit ambient) budget fs) = None /\
    Proc.final_fs (Proc.run (Train.main rank fit ambient) budget fs)
      !! "models/model.pkl" = Some (FPickle (Some model)) /\
    Api.MODEL (Api.load_model
                 (Proc.final_fs (Proc.run (Train.main rank fit ambient) budget fs))
                 Api.initial) = Some model /\
    Api.MODEL_LOADED (Api.load_model
                        (Proc.final_fs (Proc.run (Train.main rank fit ambient) budget fs))
                        Api.initial) = false /\
    Api.predict (Api.load_model
                   (Proc.final_fs (Proc.run (Train.main rank fit ambient) budget fs))
                   Api.initial) now x
      = ([], Api.Error 503 "Model is not loaded. Please check server logs.") /\
    Api.predict_batch (Api.load_model
                         (Proc.final_fs (Proc.run (Train.main rank fit ambient) budget fs))
                         Api.initial) now xs
      = ([], Api.Error 503 "Model is not loaded").
Proof.
  intros Hbefore Hafter.
  destruct (train_main_outcome rank fit ambient budget fs)
    as [[_ Hsame] | [(model & Hret & Hart & Hmet) | (m & table & _ & Hjson)]].
  - exfalso. apply Hbefore. rewrite <- Hsame. exact Hafter.
  - exists model. split; [exact Hret |]. split; [exact Hart |].
    rewrite (load_model_unreadable_sidecar _ _ Hart Hmet).
    repeat split; reflexivity.
  - rewrite Hjson in Hafter. discriminate.
Qed.

Lemma script_ends_inside_sidecar_write_witness :
  Proc.final_fs (Proc.run (Train.main Examples.rank_in_place Examples.fit_setosa 0)
                          5 Examples.fs_script_coded) !! "models/metrics.json"
    = Some FOther /\
  match Proc.run (Train.main Examples.rank_in_place Examples.fit_setosa 0)
                 5 Examples.fs_script_coded with
  | Proc.Raised e _ => exn_class e
  | _ => ""
  end = "TypeError" /\
  Api.MODEL_LOADED
    (Api.load_model
       (Proc.final_fs (Proc.run (Train.main Examples.rank_in_place Examples.fit_setosa 0)
                                5 Examples.fs_script_coded))
       Api.initial) = false.
Proof.
  assert (Hbefore : Examples.fs_script_coded !! "models/metrics.json" <> Some FOther)
    by (vm_compute; discriminate).
  assert (Hafter :
            Proc.final_fs (Proc.run (Train.main Examples.rank_in_place Examples.fit_setosa 0)
                                    5 Examples.fs_script_coded) !! "models/metrics.json"
            = Some FOther) by (vm_compute; reflexivity).
  split; [exact Hafter |]. split; [vm_compute; reflexivity |].
  destruct (script_ends_inside_sidecar_write
              Examples.rank_in_place Examples.fit_setosa 0 5 Examples.fs_script_coded
              "2024-01-01T00:00:00" Examples.iris_1 [] Hbefore Hafter)
    as (model & _ & _ & _ & HL & _).
  exact HL.
Defined.

(** *** Partial metadata *)

(** X19. The model-info answer falls back entry by entry: in the Loaded
    state with a metadata object, each of the feature names, the class
    names and the accuracy of a successful answer is the compiled-in
    default when its own entry is missing, whatever the other entries hold,
    and is the entry's value when that is a list of strings, respectively a
    number. *)
Theorem model_info_fallback_per_key st now est fields info :
  Api.MODEL st = Some est -> Api.MODEL_LOADED st = true ->
  Api.MODEL_METADATA st = JObj fields ->
  Api.get_model_info st now = Api.Ok200 info ->
  (assoc_get "features_used" fields = None ->
     Api.features info = ["sepal_length"; "sepal_width"; "petal_length"; "petal_width"]) /\
  (assoc_get "classes" fields = None ->
     Api.classes info = ["setosa"; "versicolor"; "virginica"]) /\
  (assoc_get "train_accuracy" fields = None -> Api.accuracy info = 1%Q) /\
  (forall names, assoc_get "features_used" fields = Some (JArr (map JStr names)) ->
     Api.features info = names) /\
  (forall names, assoc_get "classes" fields = Some (JArr (map JStr names)) ->
     Api.classes info = names) /\
  (forall a, assoc_get "train_accuracy" fields = Some (JNum a) -> Api.accuracy info = a).
Proof.
  intros HM HL HD. unfold Api.get_model_info.
  rewrite (not_loaded_false st est HM HL), HD.
  assert (Hmeta : (if truthy (JObj fields) then JObj fields else JObj []) = JObj fields)
    by (destruct fields; reflexivity).
  rewrite Hmeta. unfold py_get, rbind. cbv beta iota zeta.
  destruct (Api.as_str_list
              match assoc_get "features_used" fields with Some v => v | None => _ end)
    as [e | fs] eqn:Hf; [discriminate |].
  destruct (Api.as_str_list
              match assoc_get "classes" fields with Some v => v | None => _ end)
    as [e | cs] eqn:Hc; [discriminate |].
  destruct (Api.as_float _) as [e | a] eqn:Ha; [discriminate |].
  intros [= <-]. simpl.
  split; [| split; [| split; [| split; [| split]]]].
  - intros H. rewrite H in Hf. simpl in Hf. congruence.
  - intros H. rewrite H in Hc. simpl in Hc. congruence.
  - intros H. rewrite H in Ha. simpl in Ha. congruence.
  - intros names H. rewrite H in Hf. simpl in Hf. rewrite str_items_names in Hf.
    congruence.
  - intros names H. rewrite H in Hc. simpl in Hc. rewrite str_items_names in Hc.
    congruence.
  - intros a0 H. rewrite H in Ha. simpl in Ha. congruence.
Qed.

Lemma model_info_fallback_per_key_witness :
  exists info,
    Api.get_model_info
      (Examples.loaded_with Examples.setosa_always (JObj [("train_accuracy", JNum (1 # 2))]))
      "2024-01-01T00:00:00" = Api.Ok200 info /\
    Api.features info = ["sepal_length"; "sepal_width"; "petal_length"; "petal_width"] /\
    Api.accuracy info = (1 # 2)%Q.
Proof.
  eexists. split; [reflexivity |].
  destruct (model_info_fallback_per_key
              (Examples.loaded_with Examples.setosa_always
                 (JObj [("train_accuracy", JNum (1 # 2))]))
              "2024-01-01T00:00:00" Examples.setosa_always
              [("train_accuracy", JNum (1 # 2))] _ eq_refl eq_refl eq_refl eq_refl)
    as (Hf & _ & _ & _ & _ & Ha).
  split; [exact (Hf eq_refl) | exact (Ha _ eq_refl)].
Defined.
